(** * Generic CRTP commander packets: the setpoint decoder

    A shallow embedding of [src/modules/src/crtp_commander_generic.c]
    (Crazyflie firmware) and the properties of its packet decoders.

    Conventions of the embedding.
    - The bytes of a packet are [byte]s; a [uint8_t], [uint16_t] or
      [uint32_t] value is a [Z] in its range, and the one arithmetic
      operation of the file that can overflow ([debugCount++]) has its
      wrap-around written out.
    - A [float] is its IEEE-754 binary32 bit pattern, a 32-bit [Z]: the
      decoders only move floats around, they never compute with them.
    - The firmware runs on a little-endian ARM core and is compiled with
      GCC: a packed struct laid over a byte buffer reads its multi-byte
      fields least significant byte first, and bit-fields are allocated
      from the least significant bit of their storage unit upwards.
    - [ASSERT] never returns when its condition is false; the embedding
      keeps the memory as it was at that moment. *)

From Stdlib Require Import ZArith List Bool Lia QArith Qpower.
From Stdlib Require Import Strings.Byte.
From Stdlib Require Import Floats.SpecFloat.
Import ListNotations.

Local Open Scope Z_scope.

(** ** Bytes and the fields of packed structs *)

Definition byte_to_Z (b : byte) : Z := Z.of_N (Byte.to_N b).

Definition byte_of_Z (z : Z) : byte :=
  match Byte.of_N (Z.to_N (z mod 256)) with
  | Some b => b
  | None => x00
  end.

(** [buf[i]] on a byte buffer; the decoders only read inside the buffer. *)
Definition byte_at (buf : list byte) (i : Z) : Z :=
  byte_to_Z (nth (Z.to_nat i) buf x00).

(** A [uint16_t] field at byte offset [off] of a packed struct. *)
Definition load_u16 (buf : list byte) (off : Z) : Z :=
  byte_at buf off + 2 ^ 8 * byte_at buf (off + 1).

(** A [float] field at byte offset [off] of a packed struct. *)
Definition load_float (buf : list byte) (off : Z) : Z :=
  byte_at buf off
  + 2 ^ 8 * byte_at buf (off + 1)
  + 2 ^ 16 * byte_at buf (off + 2)
  + 2 ^ 24 * byte_at buf (off + 3).

(** The bit-field of [width] bits that starts at bit [pos] of the
    storage unit [w]. *)
Definition bitfield (w pos width : Z) : Z :=
  Z.land (Z.shiftr w pos) (Z.ones width).

Definition wrap32 (z : Z) : Z := z mod 2 ^ 32.

(** ** The wire side: how a sender lays values out

    These follow the documented packet formats, not the decoder; the
    theorems compare the two. *)

Fixpoint le_bytes (n : nat) (v : Z) : list byte :=
  match n with
  | O => []
  | S n' => byte_of_Z v :: le_bytes n' (v / 256)
  end.

Definition float_bytes (v : Z) : list byte := le_bytes 4 v.
Definition half_bytes (v : Z) : list byte := le_bytes 2 v.

(** ** CRTP packets *)

(** [CRTPPacket]: [size] is the number of valid bytes of [data]
    (a [uint8_t]); [data] is the buffer, whose first byte is the type. *)
Record CRTPPacket := mkCRTPPacket {
  size : Z;
  data : list byte
}.

Definition CRTP_MAX_DATA_SIZE : Z := 30.

Definition wf_packet (pk : CRTPPacket) : Prop :=
  0 <= size pk <= CRTP_MAX_DATA_SIZE /\
  Z.of_nat (length (data pk)) = CRTP_MAX_DATA_SIZE.

(** The packet a sender builds from a type and a payload: the bytes in
    order, the rest of the buffer zero. *)
Definition packet_of (type : Z) (payload : list byte) : CRTPPacket :=
  let bytes := byte_of_Z type :: payload in
  {| size := Z.of_nat (length bytes);
     data := bytes ++ repeat x00 (Z.to_nat CRTP_MAX_DATA_SIZE - length bytes) |}.

(** ** The setpoint *)

(** Modelled from the spec: the declaration of [stab_mode_t]
    (stabilizer_types.h) is not among the sources at hand.  The axis-mode
    vocabulary is {disabled, abs-position, velocity}; the first
    enumerator is the value a zeroed field holds. *)
Inductive stab_mode_t := modeDisable | modeAbs | modeVelocity.

(** [setpoint->mode] *)
Record mode_t := mkMode {
  mode_x : stab_mode_t;
  mode_y : stab_mode_t;
  mode_z : stab_mode_t;
  mode_yaw : stab_mode_t
}.

(** [setpoint->velocity] *)
Record velocity_t := mkVelocity {
  velocity_x : Z;
  velocity_y : Z;
  velocity_z : Z
}.

(** Modelled from the spec: the declaration of [setpoint_t]
    (stabilizer_types.h) is not among the sources at hand.  The record
    has every member the decoders of this file name: the enumerated
    modes, the velocity, the yaw rate of [attitudeRate], the numeric
    3-bit modes [xmode], [ymode], [zmode], the term arrays [x[3]],
    [y[3]], [z[3]], [yaw[2]] and the two emergency flags.  Members the
    file never names can only hold what [memset] left there. *)
Record setpoint_t := mkSetpoint {
  mode : mode_t;
  velocity : velocity_t;
  attitudeRate_yaw : Z;
  xmode : Z;
  ymode : Z;
  zmode : Z;
  sp_x : list Z;
  sp_y : list Z;
  sp_z : list Z;
  sp_yaw : list Z;
  setEmergency : bool;
  resetEmergency : bool
}.

(** What [memset(setpoint, 0, sizeof(setpoint_t))] leaves: every enum at
    its first enumerator, every number and float at (+)0, every flag
    false. *)
Definition neutral_setpoint : setpoint_t :=
  {| mode := mkMode modeDisable modeDisable modeDisable modeDisable;
     velocity := mkVelocity 0 0 0;
     attitudeRate_yaw := 0;
     xmode := 0; ymode := 0; zmode := 0;
     sp_x := [0; 0; 0]; sp_y := [0; 0; 0]; sp_z := [0; 0; 0];
     sp_yaw := [0; 0];
     setEmergency := false; resetEmergency := false |}.

(** [a[i] = v] on a C array held as a list; the loops of the decoders
    stay inside the arrays, outside of them the list is left alone. *)
Fixpoint array_set (a : list Z) (i : nat) (v : Z) : list Z :=
  match a, i with
  | [], _ => []
  | _ :: t, O => v :: t
  | h :: t, S i' => h :: array_set t i' v
  end.

Definition array_get (a : list Z) (i : nat) : Z := nth i a 0.

(** Field assignments: [set_f v s] is [s] after [s.f = v]. *)
Definition set_mode_x (v : stab_mode_t) (m : mode_t) : mode_t :=
  mkMode v (mode_y m) (mode_z m) (mode_yaw m).
Definition set_mode_y (v : stab_mode_t) (m : mode_t) : mode_t :=
  mkMode (mode_x m) v (mode_z m) (mode_yaw m).
Definition set_mode_z (v : stab_mode_t) (m : mode_t) : mode_t :=
  mkMode (mode_x m) (mode_y m) v (mode_yaw m).
Definition set_mode_yaw (v : stab_mode_t) (m : mode_t) : mode_t :=
  mkMode (mode_x m) (mode_y m) (mode_z m) v.

Definition set_velocity_x (v : Z) (w : velocity_t) : velocity_t :=
  mkVelocity v (velocity_y w) (velocity_z w).
Definition set_velocity_y (v : Z) (w : velocity_t) : velocity_t :=
  mkVelocity (velocity_x w) v (velocity_z w).
Definition set_velocity_z (v : Z) (w : velocity_t) : velocity_t :=
  mkVelocity (velocity_x w) (velocity_y w) v.

Definition upd_mode (f : mode_t -> mode_t) (s : setpoint_t) : setpoint_t :=
  mkSetpoint (f (mode s)) (velocity s) (attitudeRate_yaw s) (xmode s)
    (ymode s) (zmode s) (sp_x s) (sp_y s)
    (sp_z s) (sp_yaw s) (setEmergency s) (resetEmergency s).
Definition upd_velocity (f : velocity_t -> velocity_t) (s : setpoint_t) : setpoint_t :=
  mkSetpoint (mode s) (f (velocity s)) (attitudeRate_yaw s) (xmode s)
    (ymode s) (zmode s) (sp_x s) (sp_y s)
    (sp_z s) (sp_yaw s) (setEmergency s) (resetEmergency s).
Definition set_attitudeRate_yaw (v : Z) (s : setpoint_t) : setpoint_t :=
  mkSetpoint (mode s) (velocity s) v (xmode s)
    (ymode s) (zmode s) (sp_x s) (sp_y s)
    (sp_z s) (sp_yaw s) (setEmergency s) (resetEmergency s).
Definition set_xmode (v : Z) (s : setpoint_t) : setpoint_t :=
  mkSetpoint (mode s) (velocity s) (attitudeRate_yaw s) v
    (ymode s) (zmode s) (sp_x s) (sp_y s)
    (sp_z s) (sp_yaw s) (setEmergency s) (resetEmergency s).
Definition set_ymode (v : Z) (s : setpoint_t) : setpoint_t :=
  mkSetpoint (mode s) (velocity s) (attitudeRate_yaw s) (xmode s)
    v (zmode s) (sp_x s) (sp_y s)
    (sp_z s) (sp_yaw s) (setEmergency s) (resetEmergency s).
Definition set_zmode (v : Z) (s : setpoint_t) : setpoint_t :=
  mkSetpoint (mode s) (velocity s) (attitudeRate_yaw s) (xmode s)
    (ymode s) v (sp_x s) (sp_y s)
    (sp_z s) (sp_yaw s) (setEmergency s) (resetEmergency s).
Definition set_setEmergency (v : bool) (s : setpoint_t) : setpoint_t :=
  mkSetpoint (mode s) (velocity s) (attitudeRate_yaw s) (xmode s)
    (ymode s) (zmode s) (sp_x s) (sp_y s)
    (sp_z s) (sp_yaw s) v (resetEmergency s).
Definition set_resetEmergency (v : bool) (s : setpoint_t) : setpoint_t :=
  mkSetpoint (mode s) (velocity s) (attitudeRate_yaw s) (xmode s)
    (ymode s) (zmode s) (sp_x s) (sp_y s)
    (sp_z s) (sp_yaw s) (setEmergency s) v.
Definition set_x (i : nat) (v : Z) (s : setpoint_t) : setpoint_t :=
  mkSetpoint (mode s) (velocity s) (attitudeRate_yaw s) (xmode s)
    (ymode s) (zmode s) (array_set (sp_x s) i v) (sp_y s)
    (sp_z s) (sp_yaw s) (setEmergency s) (resetEmergency s).
Definition set_y (i : nat) (v : Z) (s : setpoint_t) : setpoint_t :=
  mkSetpoint (mode s) (velocity s) (attitudeRate_yaw s) (xmode s)
    (ymode s) (zmode s) (sp_x s) (array_set (sp_y s) i v)
    (sp_z s) (sp_yaw s) (setEmergency s) (resetEmergency s).
Definition set_z (i : nat) (v : Z) (s : setpoint_t) : setpoint_t :=
  mkSetpoint (mode s) (velocity s) (attitudeRate_yaw s) (xmode s)
    (ymode s) (zmode s) (sp_x s) (sp_y s)
    (array_set (sp_z s) i v) (sp_yaw s) (setEmergency s) (resetEmergency s).
Definition set_yaw (i : nat) (v : Z) (s : setpoint_t) : setpoint_t :=
  mkSetpoint (mode s) (velocity s) (attitudeRate_yaw s) (xmode s)
    (ymode s) (zmode s) (sp_x s) (sp_y s)
    (sp_z s) (array_set (sp_yaw s) i v) (setEmergency s) (resetEmergency s).

(** ** The half-precision codec *)

(** A binary32 bit pattern from its sign bit, biased exponent and
    fraction. *)
Definition single_of_fields (s e f : Z) : Z := s * 2 ^ 31 + e * 2 ^ 23 + f.

(** Modelled from the spec: [half2single] (declared in num.h) is not
    among the sources at hand.  It maps a half-precision bit pattern to
    the single-precision value it denotes under IEEE-754 binary16:
    a normal number has its exponent re-biased, a subnormal is
    normalised, an all-ones exponent stays an infinity or a NaN, whose
    payload moves to the top of the wider fraction.  The result is the
    binary32 bit pattern of the [float]. *)
Definition half2single (number : Z) : Z :=
  let s := bitfield number 15 1 in
  let e := bitfield number 10 5 in
  let f := bitfield number 0 10 in
  if e =? 31 then single_of_fields s 255 (f * 2 ^ 13)
  else if e =? 0 then
    if f =? 0 then single_of_fields s 0 0
    else
      let p := Z.log2 f in
      single_of_fields s (p - 24 + 127) ((f - 2 ^ p) * 2 ^ (23 - p))
  else single_of_fields s (e - 15 + 127) (f * 2 ^ 13).

(** ** Memory and control *)

(** The memory the decoder works on: the caller's setpoint (the object
    [setpoint] points to), the file's static variables and the static
    local [nTypes] of the dispatcher. *)
Record machine := mkMachine {
  the_setpoint : setpoint_t;
  debugCount : Z;
  testValueX : Z;
  testValueY : Z;
  testValueZ : Z;
  nTypes : Z
}.

(** A call either returns, or stops for good in [ASSERT]; the failed
    assertion is known by its source line, and the memory is the one at
    that moment. *)
Inductive outcome (A : Type) : Type :=
| Returns (a : A) (m : machine)
| Aborts (line : Z) (m : machine).
Arguments Returns {A} a m.
Arguments Aborts {A} line m.

Definition M (A : Type) : Type := machine -> outcome A.

Definition ret {A} (a : A) : M A := fun m => Returns a m.

Definition bind {A B} (c : M A) (k : A -> M B) : M B :=
  fun m =>
    match c m with
    | Returns a m' => k a m'
    | Aborts line m' => Aborts line m'
    end.

Declare Scope cmd_scope.
Delimit Scope cmd_scope with cmd.
Notation "x <- c ;; k" := (bind c (fun x => k))
  (at level 61, c at next level, right associativity) : cmd_scope.
Notation "c ;; k" := (bind c (fun _ => k))
  (at level 61, right associativity) : cmd_scope.
Local Open Scope cmd_scope.

Definition ASSERT (line : Z) (e : bool) : M unit :=
  fun m => if e then Returns tt m else Aborts line m.

(** An assignment through the pointer [setpoint]. *)
Definition assign (f : setpoint_t -> setpoint_t) : M unit :=
  fun m =>
    Returns tt (mkMachine (f (the_setpoint m)) (debugCount m) (testValueX m)
                  (testValueY m) (testValueZ m) (nTypes m)).

(** A read through the pointer [setpoint]. *)
Definition deref {A} (f : setpoint_t -> A) : M A :=
  fun m => Returns (f (the_setpoint m)) m.

Definition get_nTypes : M Z := fun m => Returns (nTypes m) m.

Definition put_nTypes (v : Z) : M unit :=
  fun m =>
    Returns tt (mkMachine (the_setpoint m) (debugCount m) (testValueX m)
                  (testValueY m) (testValueZ m) v).

Definition put_testValueX (v : Z) : M unit :=
  fun m =>
    Returns tt (mkMachine (the_setpoint m) (debugCount m) v
                  (testValueY m) (testValueZ m) (nTypes m)).

Definition put_testValueY (v : Z) : M unit :=
  fun m =>
    Returns tt (mkMachine (the_setpoint m) (debugCount m) (testValueX m)
                  v (testValueZ m) (nTypes m)).

Definition put_testValueZ (v : Z) : M unit :=
  fun m =>
    Returns tt (mkMachine (the_setpoint m) (debugCount m) (testValueX m)
                  (testValueY m) v (nTypes m)).

(** [debugCount++] on a [uint32_t]. *)
Definition incr_debugCount : M unit :=
  fun m =>
    Returns tt (mkMachine (the_setpoint m) (wrap32 (debugCount m + 1)) (testValueX m)
                  (testValueY m) (testValueZ m) (nTypes m)).

(** [for (int i = 0; i < n; i++) body i] *)
Fixpoint for_from (i : nat) (count : nat) (body : nat -> M unit) : M unit :=
  match count with
  | O => ret tt
  | S count' => body i ;; for_from (S i) count' body
  end.

Definition for_upto (n : nat) (body : nat -> M unit) : M unit := for_from 0 n body.

(** ** The decoders *)

Definition packetDecoder_t : Type := Z -> list byte -> Z -> M unit.

(** [enum packet_type] *)
Definition stopType : Z := 0.
Definition velocityWorldType : Z := 1.
Definition rateType : Z := 2.
Definition fullControlType : Z := 3.

Definition stopDecoder : packetDecoder_t :=
  fun type data datalen => ret tt.

(** [struct velocityPacket_s], packed: the floats [vx], [vy], [vz],
    [yawrate] one after the other. *)
Definition sizeof_velocityPacket_s : Z := 4 * 4.
Definition values_vx (data : list byte) : Z := load_float data 0.
Definition values_vy (data : list byte) : Z := load_float data 4.
Definition values_vz (data : list byte) : Z := load_float data 8.
Definition values_yawrate (data : list byte) : Z := load_float data 12.

Definition velocityDecoder : packetDecoder_t :=
  fun type data datalen =>
    ASSERT 101 (datalen =? sizeof_velocityPacket_s) ;;
    assign (upd_mode (set_mode_x modeVelocity)) ;;
    assign (upd_mode (set_mode_y modeVelocity)) ;;
    assign (upd_mode (set_mode_z modeVelocity)) ;;
    assign (upd_velocity (set_velocity_x (values_vx data))) ;;
    assign (upd_velocity (set_velocity_y (values_vy data))) ;;
    assign (upd_velocity (set_velocity_z (values_vz data))) ;;
    assign (upd_mode (set_mode_yaw modeVelocity)) ;;
    assign (set_xmode 2) ;;
    assign (set_ymode 2) ;;
    assign (set_zmode 2) ;;
    assign (set_x 1 (values_vx data)) ;;
    assign (set_y 1 (values_vy data)) ;;
    assign (set_z 1 (values_vz data)) ;;
    assign (set_attitudeRate_yaw (values_yawrate data)).

(** [fullControlPacketHeader_t], packed, one [uint16_t] storage unit:
    the bit-fields in declaration order from bit 0. *)
Definition sizeof_fullControlPacketHeader_t : Z := 2.
Definition packetHasExternalReference (h : Z) : Z := bitfield h 0 1.
Definition header_setEmergency (h : Z) : Z := bitfield h 1 1.
Definition header_resetEmergency (h : Z) : Z := bitfield h 2 1.
Definition controlModeX (h : Z) : Z := bitfield h 3 3.
Definition controlModeY (h : Z) : Z := bitfield h 6 3.
Definition controlModeZ (h : Z) : Z := bitfield h 9 3.

(** [fullControlPacket_t], packed: the header, then the [uint16_t]
    arrays [x[3]], [y[3]], [z[3]], [yaw[2]]. *)
Definition offsetof_x : Z := sizeof_fullControlPacketHeader_t.
Definition offsetof_y : Z := offsetof_x + 3 * 2.
Definition offsetof_z : Z := offsetof_y + 3 * 2.
Definition offsetof_yaw : Z := offsetof_z + 3 * 2.
Definition sizeof_fullControlPacket_t : Z := offsetof_yaw + 2 * 2.

Definition packet_x (data : list byte) (i : nat) : Z :=
  load_u16 data (offsetof_x + 2 * Z.of_nat i).
Definition packet_y (data : list byte) (i : nat) : Z :=
  load_u16 data (offsetof_y + 2 * Z.of_nat i).
Definition packet_z (data : list byte) (i : nat) : Z :=
  load_u16 data (offsetof_z + 2 * Z.of_nat i).
Definition packet_yaw (data : list byte) (i : nat) : Z :=
  load_u16 data (offsetof_yaw + 2 * Z.of_nat i).

(** A one-bit field stored into a flag of the setpoint. *)
Definition flag_of (bit : Z) : bool := negb (bit =? 0).

Definition fullControlDecoder : packetDecoder_t :=
  fun type data datalen =>
    ASSERT 148 (datalen =? sizeof_fullControlPacket_t) ;;
    let header := load_u16 data 0 in
    assign (set_xmode (controlModeX header)) ;;
    assign (set_ymode (controlModeY header)) ;;
    assign (set_zmode (controlModeZ header)) ;;
    assign (set_setEmergency (flag_of (header_setEmergency header))) ;;
    assign (set_resetEmergency (flag_of (header_resetEmergency header))) ;;
    for_upto 3 (fun i => assign (set_x i (half2single (packet_x data i)))) ;;
    for_upto 3 (fun i => assign (set_y i (half2single (packet_y data i)))) ;;
    for_upto 3 (fun i => assign (set_z i (half2single (packet_z data i)))) ;;
    for_upto 2 (fun i => assign (set_yaw i (half2single (packet_yaw data i)))) ;;
    x0 <- deref (fun s => array_get (sp_x s) 0) ;;
    put_testValueX x0 ;;
    y0 <- deref (fun s => array_get (sp_y s) 0) ;;
    put_testValueY y0 ;;
    z0 <- deref (fun s => array_get (sp_z s) 0) ;;
    put_testValueZ z0 ;;
    incr_debugCount.

(** [packetDecoders]: designated initialisers; the slot of [rateType]
    is left [NULL]. *)
Definition packetDecoders : list (option packetDecoder_t) :=
  [ Some stopDecoder; Some velocityDecoder; None; Some fullControlDecoder ].

Definition memset_setpoint : M unit := assign (fun _ => neutral_setpoint).

(** The decoder switch. *)
Definition crtpCommanderGenericDecodeSetpoint (pk : CRTPPacket) : M unit :=
  ASSERT 181 (0 <? size pk) ;;
  n <- get_nTypes ;;
  (if n <? 0 then put_nTypes (Z.of_nat (length packetDecoders)) else ret tt) ;;
  let type := byte_at (data pk) 0 in
  memset_setpoint ;;
  n <- get_nTypes ;;
  if type <? n then
    match nth (Z.to_nat type) packetDecoders None with
    | Some decoder => decoder type (skipn 1 (data pk)) (size pk - 1)
    | None => ret tt
    end
  else ret tt.

(** The memory before the first packet: statics are zero, [nTypes] has
    its initialiser; the caller's setpoint holds anything. *)
Definition initial_machine (sp : setpoint_t) : machine :=
  mkMachine sp 0 0 0 0 (-1).

(** ** What a bit pattern denotes: IEEE-754 interchange formats

    [SF_of_bits ew mw w] reads [w] as a float with [ew] exponent bits
    and [mw] fraction bits: the datum (zero, infinity, NaN or a finite
    number [(-1)^s * m * 2^e]) the pattern stands for. *)
Definition SF_of_bits (ew mw : Z) (w : Z) : spec_float :=
  let s := Z.odd (w / 2 ^ (ew + mw)) in
  let e := (w / 2 ^ mw) mod 2 ^ ew in
  let f := w mod 2 ^ mw in
  let bias := 2 ^ (ew - 1) - 1 in
  if e =? 2 ^ ew - 1 then
    if f =? 0 then S754_infinity s else S754_nan
  else if e =? 0 then
    match f with
    | Zpos m => S754_finite s m (1 - bias - mw)
    | _ => S754_zero s
    end
  else
    match 2 ^ mw + f with
    | Zpos m => S754_finite s m (e - bias - mw)
    | _ => S754_nan
    end.

Definition binary16 : Z -> spec_float := SF_of_bits 5 10.
Definition binary32 : Z -> spec_float := SF_of_bits 8 23.

(** The rational number a finite float is. *)
Definition finite_value (s : bool) (m : positive) (e : Z) : Q :=
  ((if s then -1 else 1) * inject_Z (Zpos m) * 2 ^ e)%Q.

(** Two floats, possibly of different formats, are the same datum: the
    same signed zero, the same infinity, both NaN, or finite numbers of
    the same value. *)
Definition SFsame (x y : spec_float) : Prop :=
  match x, y with
  | S754_zero s, S754_zero s' => s = s'
  | S754_infinity s, S754_infinity s' => s = s'
  | S754_nan, S754_nan => True
  | S754_finite s m e, S754_finite s' m' e' =>
      (finite_value s m e == finite_value s' m' e')%Q
  | _, _ => False
  end.

(** ** Invariants and abbreviations used by the statements *)

(** [nTypes] holds its initialiser until the first call, the number of
    slots of [packetDecoders] afterwards. *)
Definition nTypes_ok (m : machine) : Prop :=
  nTypes m = -1 \/ nTypes m = Z.of_nat (length packetDecoders).

(** The static [uint32_t] counter is in its range. *)
Definition debugCount_ok (m : machine) : Prop :=
  0 <= debugCount m < 2 ^ 32.

(** The memory right after the dispatcher's [memset]: the setpoint is
    neutral, [nTypes] is set, the diagnostics are as they were. *)
Definition neutralized (m : machine) : machine :=
  mkMachine neutral_setpoint (debugCount m) (testValueX m) (testValueY m)
    (testValueZ m) (Z.of_nat (length packetDecoders)).

(** The type byte and the payload the dispatcher hands to a decoder. *)
Definition packet_type (pk : CRTPPacket) : Z := byte_at (data pk) 0.
Definition payload (pk : CRTPPacket) : list byte := skipn 1 (data pk).

(** The sender's side of the full-control header: the documented bit
    positions. *)
Definition pack_header (ext se re : bool) (mx my mz pad : Z) : Z :=
  Z.b2z ext + 2 * Z.b2z se + 4 * Z.b2z re
  + 8 * mx + 64 * my + 512 * mz + 4096 * pad.

(** A setpoint left in the caller's memory by an earlier command, and
    the memory of a first call that finds it there. *)
Definition stale_setpoint : setpoint_t :=
  {| mode := mkMode modeAbs modeAbs modeAbs modeVelocity;
     velocity := mkVelocity 1 2 3;
     attitudeRate_yaw := 4;
     xmode := 1; ymode := 1; zmode := 1;
     sp_x := [5; 6; 7]; sp_y := [8; 9; 10]; sp_z := [11; 12; 13];
     sp_yaw := [14; 15];
     setEmergency := true; resetEmergency := true |}.

Definition first_call : machine := initial_machine stale_setpoint.

(** The setpoint [velocityDecoder] leaves when it is given a neutral
    setpoint and the payload [d]. *)
Definition decoded_velocity (d : list byte) : setpoint_t :=
  {| mode := mkMode modeVelocity modeVelocity modeVelocity modeVelocity;
     velocity := mkVelocity (values_vx d) (values_vy d) (values_vz d);
     attitudeRate_yaw := values_yawrate d;
     xmode := 2; ymode := 2; zmode := 2;
     sp_x := [0; values_vx d; 0];
     sp_y := [0; values_vy d; 0];
     sp_z := [0; values_vz d; 0];
     sp_yaw := [0; 0];
     setEmergency := false; resetEmergency := false |}.

(** The setpoint [fullControlDecoder] leaves when it is given a neutral
    setpoint and the payload [d]. *)
Definition decoded_fullControl (d : list byte) : setpoint_t :=
  {| mode := mkMode modeDisable modeDisable modeDisable modeDisable;
     velocity := mkVelocity 0 0 0;
     attitudeRate_yaw := 0;
     xmode := controlModeX (load_u16 d 0);
     ymode := controlModeY (load_u16 d 0);
     zmode := controlModeZ (load_u16 d 0);
     sp_x := map (fun i => half2single (packet_x d i)) [0; 1; 2]%nat;
     sp_y := map (fun i => half2single (packet_y d i)) [0; 1; 2]%nat;
     sp_z := map (fun i => half2single (packet_z d i)) [0; 1; 2]%nat;
     sp_yaw := map (fun i => half2single (packet_yaw d i)) [0; 1]%nat;
     setEmergency := flag_of (header_setEmergency (load_u16 d 0));
     resetEmergency := flag_of (header_resetEmergency (load_u16 d 0)) |}.

(** Two full-control packets a sender could build: the header asks for
    mode codes 1, 2, 3 on x, y, z and sets the emergency flag; the
    half-floats are 0.5, 1.0, -2.0, ...  The first carries the 11
    half-floats of [fullControlPacket_t], the second only 8. *)
Definition example_header : Z := pack_header false true false 1 2 3 0.

Definition example_fullControl_24 : CRTPPacket :=
  packet_of fullControlType
    (half_bytes example_header
     ++ flat_map half_bytes
          [0x3800; 0x3C00; 0xC000; 0x3800; 0x3C00; 0xC000;
           0x3800; 0x3C00; 0xC000; 0x3800; 0x3C00]).

Definition example_fullControl_18 : CRTPPacket :=
  packet_of fullControlType
    (half_bytes example_header
     ++ flat_map half_bytes
          [0x3800; 0x3C00; 0xC000; 0x3800; 0x3C00; 0xC000; 0x3800; 0x3C00]).

(** [aborts_only_at lines c]: whenever the command [c] stops in an
    assertion, it is one of the assertions at the source lines [lines]. *)
Definition aborts_only_at {A} (lines : list Z) (c : M A) : Prop :=
  forall m line m', c m = Aborts line m' -> In line lines.

(** ** Outcomes, acceptance and calls in sequence *)

(** The memory a call leaves, however it ended, and whether it
    returned. *)
Definition final {A} (o : outcome A) : machine :=
  match o with
  | Returns _ m => m
  | Aborts _ m => m
  end.

Definition returned {A} (o : outcome A) : bool :=
  match o with
  | Returns _ _ => true
  | Aborts _ _ => false
  end.

Definition machine_ok (m : machine) : Prop := nTypes_ok m /\ debugCount_ok m.

(** The packets no assertion objects to: not empty, and of the one size
    a decoder with a payload struct insists on. *)
Definition accepted (pk : CRTPPacket) : Prop :=
  0 < size pk
  /\ (packet_type pk = velocityWorldType -> size pk = sizeof_velocityPacket_s + 1)
  /\ (packet_type pk = fullControlType -> size pk = sizeof_fullControlPacket_t + 1).

Definition is_fullControl (pk : CRTPPacket) : bool :=
  packet_type pk =? fullControlType.

(** The numeric modes fit their three bits and the term arrays have the
    lengths of their declarations. *)
Definition setpoint_in_bounds (s : setpoint_t) : Prop :=
  0 <= xmode s < 8 /\ 0 <= ymode s < 8 /\ 0 <= zmode s < 8
  /\ length (sp_x s) = 3%nat /\ length (sp_y s) = 3%nat
  /\ length (sp_z s) = 3%nat /\ length (sp_yaw s) = 2%nat.

(** The dispatcher called on one packet after the other, on the same
    setpoint object; a failed assertion ends it all. *)
Fixpoint decode_all (ps : list CRTPPacket) : M unit :=
  match ps with
  | [] => ret tt
  | pk :: ps' => crtpCommanderGenericDecodeSetpoint pk ;; decode_all ps'
  end.

(** The most recent full-control packet of a sequence. *)
Fixpoint last_fullControl (ps : list CRTPPacket) : option CRTPPacket :=
  match ps with
  | [] => None
  | pk :: ps' =>
      match last_fullControl ps' with
      | Some q => Some q
      | None => if is_fullControl pk then Some pk else None
      end
  end.

(** The dispatcher in closed form, for a memory whose [nTypes] is
    well-formed. *)
Definition decode_closed (pk : CRTPPacket) (m : machine) : outcome unit :=
  if 0 <? size pk then
    if packet_type pk =? velocityWorldType then
      if size pk - 1 =? sizeof_velocityPacket_s then
        Returns tt (mkMachine (decoded_velocity (payload pk)) (debugCount m)
                      (testValueX m) (testValueY m) (testValueZ m) 4)
      else Aborts 101 (neutralized m)
    else if packet_type pk =? fullControlType then
      if size pk - 1 =? sizeof_fullControlPacket_t then
        Returns tt (mkMachine (decoded_fullControl (payload pk))
                      (wrap32 (debugCount m + 1))
                      (half2single (packet_x (payload pk) 0))
                      (half2single (packet_y (payload pk) 0))
                      (half2single (packet_z (payload pk) 0)) 4)
      else Aborts 148 (neutralized m)
    else Returns tt (neutralized m)
  else Aborts 181 m.

(** * Properties *)

(** ** Bytes *)

Lemma byte_to_Z_range (b : byte) : 0 <= byte_to_Z b < 256.
Proof.
  unfold byte_to_Z. pose proof (Byte.to_N_bounded b). lia.
Qed.

Lemma byte_to_of_Z (z : Z) : byte_to_Z (byte_of_Z z) = z mod 256.
Proof.
  unfold byte_of_Z, byte_to_Z.
  assert (0 <= z mod 256 < 256) by (apply Z.mod_pos_bound; lia).
  destruct (Byte.of_N (Z.to_N (z mod 256))) eqn:E.
  - apply Byte.to_of_N in E. rewrite E. lia.
  - apply Byte.of_N_None_iff in E. lia.
Qed.

Lemma byte_at_range (buf : list byte) (i : Z) : 0 <= byte_at buf i < 256.
Proof. apply byte_to_Z_range. Qed.

Lemma byte_to_of_Z_small (z : Z) : 0 <= z < 256 -> byte_to_Z (byte_of_Z z) = z.
Proof. intros H. rewrite byte_to_of_Z. apply Z.mod_small, H. Qed.

(** Reading back what [le_bytes] laid out. *)
Lemma load_float_le_bytes (v : Z) (rest : list byte) :
  0 <= v < 2 ^ 32 -> load_float (float_bytes v ++ rest) 0 = v.
Proof.
  intros Hv. unfold load_float, byte_at, float_bytes.
  change (Z.to_nat 0) with 0%nat. change (Z.to_nat (0 + 1)) with 1%nat.
  change (Z.to_nat (0 + 2)) with 2%nat. change (Z.to_nat (0 + 3)) with 3%nat.
  cbn [le_bytes app nth].
  rewrite !byte_to_of_Z.
  change (2 ^ 8) with 256. change (2 ^ 16) with (256 * 256).
  change (2 ^ 24) with (256 * 256 * 256).
  change (2 ^ 32) with (256 * 256 * 256 * 256) in Hv.
  pose proof (Z.div_mod v 256 ltac:(lia)).
  pose proof (Z.div_mod (v / 256) 256 ltac:(lia)).
  pose proof (Z.div_mod (v / 256 / 256) 256 ltac:(lia)).
  assert (0 <= v / 256 / 256 / 256 < 256).
  { split.
    - repeat apply Z.div_pos; lia.
    - repeat (apply Z.div_lt_upper_bound; [lia|]). lia. }
  rewrite (Z.mod_small (v / 256 / 256 / 256)) by lia.
  lia.
Qed.

Lemma load_u16_le_bytes (v : Z) (rest : list byte) :
  0 <= v < 2 ^ 16 -> load_u16 (half_bytes v ++ rest) 0 = v.
Proof.
  intros Hv. unfold load_u16, byte_at, half_bytes.
  change (Z.to_nat 0) with 0%nat. change (Z.to_nat (0 + 1)) with 1%nat.
  cbn [le_bytes app nth].
  rewrite !byte_to_of_Z.
  change (2 ^ 8) with 256. change (2 ^ 16) with (256 * 256) in Hv.
  pose proof (Z.div_mod v 256 ltac:(lia)).
  assert (0 <= v / 256 < 256).
  { split; [apply Z.div_pos; lia | apply Z.div_lt_upper_bound; lia]. }
  rewrite (Z.mod_small (v / 256)) by lia.
  lia.
Qed.

(** A load at an offset past a prefix is a load in what follows. *)
Lemma byte_at_app (pre buf : list byte) (i : Z) :
  0 <= i -> byte_at (pre ++ buf) (Z.of_nat (length pre) + i) = byte_at buf i.
Proof.
  intros Hi. unfold byte_at. f_equal.
  replace (Z.to_nat (Z.of_nat (length pre) + i)) with (length pre + Z.to_nat i)%nat by lia.
  apply app_nth2_plus.
Qed.

Lemma load_float_app (pre buf : list byte) (off : Z) :
  0 <= off ->
  load_float (pre ++ buf) (Z.of_nat (length pre) + off) = load_float buf off.
Proof.
  intros H. unfold load_float.
  rewrite <- !Z.add_assoc, !byte_at_app by lia. reflexivity.
Qed.

Lemma load_u16_app (pre buf : list byte) (off : Z) :
  0 <= off ->
  load_u16 (pre ++ buf) (Z.of_nat (length pre) + off) = load_u16 buf off.
Proof.
  intros H. unfold load_u16.
  rewrite <- !Z.add_assoc, !byte_at_app by lia. reflexivity.
Qed.

(** ** Bit-fields *)

Lemma bitfield_div_mod (w pos width : Z) :
  0 <= pos -> 0 <= width -> bitfield w pos width = (w / 2 ^ pos) mod 2 ^ width.
Proof.
  intros Hp Hw. unfold bitfield.
  rewrite Z.land_ones by assumption.
  rewrite Z.shiftr_div_pow2 by assumption. reflexivity.
Qed.

Lemma bitfield_testbit (w pos width i : Z) :
  0 <= pos -> 0 <= i < width ->
  Z.testbit (bitfield w pos width) i = Z.testbit w (pos + i).
Proof.
  intros Hp Hi. unfold bitfield.
  rewrite Z.land_spec, Z.shiftr_spec by lia.
  rewrite Z.ones_spec_low by lia.
  rewrite andb_true_r. f_equal. lia.
Qed.

(** ** The dispatcher *)

(** With a non-empty packet the dispatcher neutralises the setpoint and
    then runs whatever the table holds for the type byte. *)
Lemma dispatch (pk : CRTPPacket) (m : machine) :
  nTypes_ok m -> 0 < size pk ->
  crtpCommanderGenericDecodeSetpoint pk m =
  (if packet_type pk <? Z.of_nat (length packetDecoders) then
     match nth (Z.to_nat (packet_type pk)) packetDecoders None with
     | Some decoder => decoder (packet_type pk) (payload pk) (size pk - 1)
     | None => ret tt
     end
   else ret tt) (neutralized m).
Proof.
  intros Hn Hs.
  unfold crtpCommanderGenericDecodeSetpoint, bind, ASSERT.
  apply Z.ltb_lt in Hs. rewrite Hs.
  unfold get_nTypes, memset_setpoint, assign, put_nTypes, ret, neutralized.
  destruct Hn as [Hn | Hn]; rewrite Hn.
  - reflexivity.
  - change (Z.of_nat (length packetDecoders) <? 0) with false.
    cbn [nTypes the_setpoint debugCount testValueX testValueY testValueZ].
    rewrite Hn. reflexivity.
Qed.

Lemma neutralized_ok (m : machine) : nTypes_ok (neutralized m).
Proof. right. reflexivity. Qed.

(** What each slot of the table does on a neutralised memory. *)
Lemma run_stopDecoder (type : Z) (d : list byte) (len : Z) (m : machine) :
  stopDecoder type d len m = Returns tt m.
Proof. reflexivity. Qed.

Lemma run_velocityDecoder (type : Z) (d : list byte) (len : Z) (m : machine) :
  velocityDecoder type d len (neutralized m) =
  if len =? sizeof_velocityPacket_s then
    Returns tt (mkMachine (decoded_velocity d) (debugCount m) (testValueX m)
                  (testValueY m) (testValueZ m) (Z.of_nat (length packetDecoders)))
  else Aborts 101 (neutralized m).
Proof.
  unfold velocityDecoder, bind, ASSERT.
  destruct (len =? sizeof_velocityPacket_s); reflexivity.
Qed.

Lemma run_fullControlDecoder (type : Z) (d : list byte) (len : Z) (m : machine) :
  fullControlDecoder type d len (neutralized m) =
  if len =? sizeof_fullControlPacket_t then
    Returns tt (mkMachine (decoded_fullControl d) (wrap32 (debugCount m + 1))
                  (half2single (packet_x d 0)) (half2single (packet_y d 0))
                  (half2single (packet_z d 0)) (Z.of_nat (length packetDecoders)))
  else Aborts 148 (neutralized m).
Proof.
  unfold fullControlDecoder, bind, ASSERT.
  destruct (len =? sizeof_fullControlPacket_t); reflexivity.
Qed.

(** The dispatcher by type byte. *)
Lemma dispatch_velocity (pk : CRTPPacket) (m : machine) :
  nTypes_ok m -> 0 < size pk -> packet_type pk = velocityWorldType ->
  crtpCommanderGenericDecodeSetpoint pk m =
  velocityDecoder velocityWorldType (payload pk) (size pk - 1) (neutralized m).
Proof.
  intros Hn Hs Ht. rewrite dispatch by assumption. rewrite Ht. reflexivity.
Qed.

Lemma dispatch_fullControl (pk : CRTPPacket) (m : machine) :
  nTypes_ok m -> 0 < size pk -> packet_type pk = fullControlType ->
  crtpCommanderGenericDecodeSetpoint pk m =
  fullControlDecoder fullControlType (payload pk) (size pk - 1) (neutralized m).
Proof.
  intros Hn Hs Ht. rewrite dispatch by assumption. rewrite Ht. reflexivity.
Qed.

Lemma dispatch_neutral (pk : CRTPPacket) (m : machine) :
  nTypes_ok m -> 0 < size pk ->
  packet_type pk <> velocityWorldType -> packet_type pk <> fullControlType ->
  crtpCommanderGenericDecodeSetpoint pk m = Returns tt (neutralized m).
Proof.
  intros Hn Hs H1 H3. rewrite dispatch by assumption.
  pose proof (byte_at_range (data pk) 0) as Hr. fold (packet_type pk) in Hr.
  destruct (packet_type pk <? Z.of_nat (length packetDecoders)) eqn:E; [|reflexivity].
  apply Z.ltb_lt in E. change (Z.of_nat (length packetDecoders)) with 4 in E.
  unfold velocityWorldType in H1. unfold fullControlType in H3.
  assert (Hc : packet_type pk = 0 \/ packet_type pk = 2) by lia.
  destruct Hc as [Hc | Hc]; rewrite Hc; reflexivity.
Qed.

(** C1. A packet whose first byte is the stop type, the type without a
    decoder ([rateType]) or a type past the end of the table leaves the
    neutral setpoint, whatever its payload and its length, and the call
    returns: no assertion fails.  The diagnostics are untouched. *)
Theorem C1_stop_and_unregistered_types_are_neutral (pk : CRTPPacket) (m : machine) :
  nTypes_ok m ->
  0 < size pk ->
  packet_type pk = stopType \/ packet_type pk = rateType
    \/ Z.of_nat (length packetDecoders) <= packet_type pk ->
  crtpCommanderGenericDecodeSetpoint pk m = Returns tt (neutralized m)
  /\ the_setpoint (neutralized m) = neutral_setpoint.
Proof.
  intros Hn Hs Ht. split; [|reflexivity].
  apply dispatch_neutral; try assumption;
    unfold stopType, rateType, velocityWorldType, fullControlType in *;
    change (Z.of_nat (length packetDecoders)) with 4 in Ht; lia.
Qed.

Lemma C1_witness :
  crtpCommanderGenericDecodeSetpoint (packet_of 99 [x01; x02; x03]) first_call
  = Returns tt (neutralized first_call)
  /\ the_setpoint (neutralized first_call) = neutral_setpoint.
Proof.
  apply C1_stop_and_unregistered_types_are_neutral.
  - left. reflexivity.
  - reflexivity.
  - right. right. vm_compute. discriminate.
Defined.

(** *** Where a command can stop *)

Lemma aborts_ret {A} lines (a : A) : aborts_only_at lines (ret a).
Proof. intros m line m' H. discriminate H. Qed.

Lemma aborts_assign lines f : aborts_only_at lines (assign f).
Proof. intros m line m' H. discriminate H. Qed.

Lemma aborts_deref {A} lines (f : setpoint_t -> A) : aborts_only_at lines (deref f).
Proof. intros m line m' H. discriminate H. Qed.

Lemma aborts_get_nTypes lines : aborts_only_at lines get_nTypes.
Proof. intros m line m' H. discriminate H. Qed.

Lemma aborts_put_nTypes lines v : aborts_only_at lines (put_nTypes v).
Proof. intros m line m' H. discriminate H. Qed.

Lemma aborts_put_testValueX lines v : aborts_only_at lines (put_testValueX v).
Proof. intros m line m' H. discriminate H. Qed.

Lemma aborts_put_testValueY lines v : aborts_only_at lines (put_testValueY v).
Proof. intros m line m' H. discriminate H. Qed.

Lemma aborts_put_testValueZ lines v : aborts_only_at lines (put_testValueZ v).
Proof. intros m line m' H. discriminate H. Qed.

Lemma aborts_incr_debugCount lines : aborts_only_at lines incr_debugCount.
Proof. intros m line m' H. discriminate H. Qed.

Lemma aborts_ASSERT lines line e :
  e = true \/ In line lines -> aborts_only_at lines (ASSERT line e).
Proof.
  intros [He | Hin] m l m' H; unfold ASSERT in H.
  - rewrite He in H. discriminate H.
  - destruct e; [discriminate H|]. injection H as <- _. exact Hin.
Qed.

Lemma aborts_bind {A B} lines (c : M A) (k : A -> M B) :
  aborts_only_at lines c -> (forall a, aborts_only_at lines (k a)) ->
  aborts_only_at lines (bind c k).
Proof.
  intros Hc Hk m line m' H. unfold bind in H.
  destruct (c m) as [a m1 | l1 m1] eqn:E.
  - exact (Hk a m1 line m' H).
  - injection H as <- _. exact (Hc m l1 m1 E).
Qed.

Lemma aborts_for_from lines (count i : nat) (body : nat -> M unit) :
  (forall j, aborts_only_at lines (body j)) ->
  aborts_only_at lines (for_from i count body).
Proof.
  intros Hb. revert i.
  induction count as [|count IH]; intros i; cbn [for_from].
  - apply aborts_ret.
  - apply aborts_bind; [apply Hb | intros _; apply IH].
Qed.

Create HintDb aborts.
#[local] Hint Resolve aborts_ret aborts_assign aborts_deref aborts_get_nTypes
  aborts_put_nTypes aborts_put_testValueX aborts_put_testValueY
  aborts_put_testValueZ aborts_incr_debugCount aborts_for_from : aborts.

Ltac aborts_step :=
  first [ apply aborts_bind; [|intros ?]
        | apply aborts_ASSERT; cbn [In]; tauto
        | unfold for_upto; apply aborts_for_from; intros ?
        | solve [auto with aborts] ].

Lemma aborts_stopDecoder lines type d len :
  aborts_only_at lines (stopDecoder type d len).
Proof. apply aborts_ret. Qed.

Lemma aborts_velocityDecoder type d len :
  aborts_only_at [101] (velocityDecoder type d len).
Proof. unfold velocityDecoder. repeat aborts_step. Qed.

Lemma aborts_fullControlDecoder type d len :
  aborts_only_at [148] (fullControlDecoder type d len).
Proof. unfold fullControlDecoder. repeat aborts_step. Qed.

Lemma aborts_weaken {A} (l1 l2 : list Z) (c : M A) :
  incl l1 l2 -> aborts_only_at l1 c -> aborts_only_at l2 c.
Proof. intros Hi Hc m line m' H. apply Hi. exact (Hc m line m' H). Qed.

Lemma aborts_packetDecoders (i : nat) type d len :
  match nth i packetDecoders None with
  | Some decoder => aborts_only_at [101; 148] (decoder type d len)
  | None => True
  end.
Proof.
  destruct i as [|[|[|[|i]]]]; cbn [nth packetDecoders].
  - apply aborts_stopDecoder.
  - apply (aborts_weaken [101]); [|apply aborts_velocityDecoder].
    intros x [<- | []]. cbn [In]. tauto.
  - exact I.
  - apply (aborts_weaken [148]); [|apply aborts_fullControlDecoder].
    intros x [<- | []]. cbn [In]. tauto.
  - destruct i; exact I.
Qed.

(** Once the dispatcher's own assertion has passed, a call can only stop
    in the assertion of one of the two decoders that take a payload;
    this holds whatever [nTypes] held. *)
Lemma aborts_dispatcher (pk : CRTPPacket) :
  0 < size pk ->
  aborts_only_at [101; 148] (crtpCommanderGenericDecodeSetpoint pk).
Proof.
  intros Hs. apply Z.ltb_lt in Hs.
  unfold crtpCommanderGenericDecodeSetpoint. rewrite Hs.
  apply aborts_bind; [apply aborts_ASSERT; tauto | intros _].
  apply aborts_bind; [apply aborts_get_nTypes | intros n].
  apply aborts_bind; [destruct (n <? 0); auto with aborts | intros _].
  apply aborts_bind; [apply aborts_assign | intros _].
  apply aborts_bind; [apply aborts_get_nTypes | intros n'].
  destruct (byte_at (data pk) 0 <? n'); [|apply aborts_ret].
  pose proof (aborts_packetDecoders (Z.to_nat (byte_at (data pk) 0))
                (byte_at (data pk) 0) (skipn 1 (data pk)) (size pk - 1)) as H.
  destruct (nth (Z.to_nat (byte_at (data pk) 0)) packetDecoders None).
  - exact H.
  - apply aborts_ret.
Qed.

(** C8. The dispatcher asserts that the packet is not empty: on a packet
    of size 0 the call stops in that assertion (source line 181) with
    the memory untouched, the setpoint included; on a packet of size at
    least 1 that assertion never fails. *)
Theorem C8_empty_packet_is_asserted (pk : CRTPPacket) (m : machine) :
  (size pk = 0 -> crtpCommanderGenericDecodeSetpoint pk m = Aborts 181 m)
  /\ (1 <= size pk ->
      forall m', crtpCommanderGenericDecodeSetpoint pk m <> Aborts 181 m').
Proof.
  split.
  - intros Hs. unfold crtpCommanderGenericDecodeSetpoint, bind, ASSERT.
    rewrite Hs. reflexivity.
  - intros Hs m' Habs.
    apply aborts_dispatcher in Habs; [|lia].
    cbn [In] in Habs. lia.
Qed.

Lemma C8_witness :
  crtpCommanderGenericDecodeSetpoint (mkCRTPPacket 0 (repeat x00 30)) first_call
  = Aborts 181 first_call
  /\ forall m', crtpCommanderGenericDecodeSetpoint (packet_of 0 []) first_call
                <> Aborts 181 m'.
Proof.
  split.
  - apply (proj1 (C8_empty_packet_is_asserted (mkCRTPPacket 0 (repeat x00 30)) first_call)).
    reflexivity.
  - apply (proj2 (C8_empty_packet_is_asserted (packet_of 0 []) first_call)).
    vm_compute. discriminate.
Defined.

(** C2, as the code has it: the velocity payload must be 16 bytes and
    the full-control payload [sizeof(fullControlPacket_t)] = 24 bytes
    (a 2-byte header and 3 + 3 + 3 + 2 = 11 half-floats).  Any other
    payload length stops the call in the decoder's assertion, and the
    memory at that moment is the neutralised one: no field of the
    setpoint has been written after the [memset], and the diagnostics
    are as before. *)
Theorem C2_length_mismatch_is_fatal (pk : CRTPPacket) (m : machine) :
  nTypes_ok m ->
  0 < size pk ->
  (packet_type pk = velocityWorldType -> size pk - 1 <> 16 ->
   crtpCommanderGenericDecodeSetpoint pk m = Aborts 101 (neutralized m))
  /\ (packet_type pk = fullControlType -> size pk - 1 <> 24 ->
      crtpCommanderGenericDecodeSetpoint pk m = Aborts 148 (neutralized m)).
Proof.
  intros Hn Hs. split; intros Ht Hl.
  - rewrite dispatch_velocity, run_velocityDecoder by assumption.
    apply Z.eqb_neq in Hl. change sizeof_velocityPacket_s with 16.
    rewrite Hl. reflexivity.
  - rewrite dispatch_fullControl, run_fullControlDecoder by assumption.
    apply Z.eqb_neq in Hl. change sizeof_fullControlPacket_t with 24.
    rewrite Hl. reflexivity.
Qed.

Lemma C2_witness :
  crtpCommanderGenericDecodeSetpoint (packet_of 1 (repeat x01 15)) first_call
  = Aborts 101 (neutralized first_call)
  /\ crtpCommanderGenericDecodeSetpoint (packet_of 3 (repeat x01 18)) first_call
     = Aborts 148 (neutralized first_call).
Proof.
  split.
  - apply (proj1 (C2_length_mismatch_is_fatal (packet_of 1 (repeat x01 15)) first_call
                    (or_introl eq_refl) eq_refl)).
    + reflexivity.
    + vm_compute. discriminate.
  - apply (proj2 (C2_length_mismatch_is_fatal (packet_of 3 (repeat x01 18)) first_call
                    (or_introl eq_refl) eq_refl)).
    + reflexivity.
    + vm_compute. discriminate.
Defined.

(** ** The velocity packet *)

Lemma load_float_skip (v : Z) (rest : list byte) (off : Z) :
  0 <= off -> load_float (float_bytes v ++ rest) (4 + off) = load_float rest off.
Proof. intros H. exact (load_float_app (float_bytes v) rest off H). Qed.

Lemma load_u16_skip (v : Z) (rest : list byte) (off : Z) :
  0 <= off -> load_u16 (half_bytes v ++ rest) (2 + off) = load_u16 rest off.
Proof. intros H. exact (load_u16_app (half_bytes v) rest off H). Qed.

(** The four fields of [struct velocityPacket_s] read back what a sender
    wrote as four little-endian floats. *)
Lemma velocityPacket_fields (vx vy vz yawrate : Z) (rest : list byte) :
  0 <= vx < 2 ^ 32 -> 0 <= vy < 2 ^ 32 -> 0 <= vz < 2 ^ 32 ->
  0 <= yawrate < 2 ^ 32 ->
  let d := float_bytes vx ++ float_bytes vy ++ float_bytes vz
           ++ float_bytes yawrate ++ rest in
  values_vx d = vx /\ values_vy d = vy /\ values_vz d = vz
  /\ values_yawrate d = yawrate.
Proof.
  intros Hx Hy Hz Hw d. subst d.
  unfold values_vx, values_vy, values_vz, values_yawrate.
  repeat split.
  - apply load_float_le_bytes; assumption.
  - change 4 with (4 + 0).
    rewrite load_float_skip by lia. apply load_float_le_bytes; assumption.
  - change 8 with (4 + (4 + 0)).
    rewrite !load_float_skip by lia. apply load_float_le_bytes; assumption.
  - change 12 with (4 + (4 + (4 + 0))).
    rewrite !load_float_skip by lia. apply load_float_le_bytes; assumption.
Qed.

(** C3. A type-1 packet whose 16-byte payload is the four little-endian
    floats [vx], [vy], [vz], [yawrate] (floats as binary32 bit patterns)
    is decoded to the setpoint whose enumerated mode is velocity for x,
    y, z and yaw, whose term-1 slots [x[1]], [y[1]], [z[1]] hold [vx],
    [vy], [vz], whose [attitudeRate.yaw] is [yawrate] and whose numeric
    modes [xmode], [ymode], [zmode] are 0b010; every other term slot and
    both emergency flags are zero.  The call returns and the
    diagnostics are untouched. *)
Theorem C3_velocity_packet_decode
    (vx vy vz yawrate : Z) (rest : list byte) (m : machine) :
  nTypes_ok m ->
  0 <= vx < 2 ^ 32 -> 0 <= vy < 2 ^ 32 -> 0 <= vz < 2 ^ 32 ->
  0 <= yawrate < 2 ^ 32 ->
  crtpCommanderGenericDecodeSetpoint
    (mkCRTPPacket 17
       (byte_of_Z velocityWorldType
        :: float_bytes vx ++ float_bytes vy ++ float_bytes vz
           ++ float_bytes yawrate ++ rest)) m
  = Returns tt
      (mkMachine
         {| mode := mkMode modeVelocity modeVelocity modeVelocity modeVelocity;
            velocity := mkVelocity vx vy vz;
            attitudeRate_yaw := yawrate;
            xmode := 2; ymode := 2; zmode := 2;
            sp_x := [0; vx; 0]; sp_y := [0; vy; 0]; sp_z := [0; vz; 0];
            sp_yaw := [0; 0];
            setEmergency := false; resetEmergency := false |}
         (debugCount m) (testValueX m) (testValueY m) (testValueZ m) 4).
Proof.
  intros Hn Hx Hy Hz Hw.
  rewrite dispatch_velocity; [|assumption|reflexivity|reflexivity].
  rewrite run_velocityDecoder.
  change (17 - 1 =? sizeof_velocityPacket_s) with true. cbv iota.
  destruct (velocityPacket_fields vx vy vz yawrate rest Hx Hy Hz Hw)
    as (Ex & Ey & Ez & Ew).
  unfold decoded_velocity, payload. cbn [data skipn].
  rewrite Ex, Ey, Ez, Ew. reflexivity.
Qed.

(** The example of the specification: vx = 1.0, vy = 2.0, vz = 3.0,
    yawrate = 0.5 (0x3F800000, 0x40000000, 0x40400000, 0x3F000000). *)
Lemma C3_witness :
  crtpCommanderGenericDecodeSetpoint
    (mkCRTPPacket 17
       (byte_of_Z velocityWorldType
        :: float_bytes 0x3F800000 ++ float_bytes 0x40000000
           ++ float_bytes 0x40400000 ++ float_bytes 0x3F000000
           ++ repeat x00 13)) first_call
  = Returns tt
      (mkMachine
         {| mode := mkMode modeVelocity modeVelocity modeVelocity modeVelocity;
            velocity := mkVelocity 0x3F800000 0x40000000 0x40400000;
            attitudeRate_yaw := 0x3F000000;
            xmode := 2; ymode := 2; zmode := 2;
            sp_x := [0; 0x3F800000; 0]; sp_y := [0; 0x40000000; 0];
            sp_z := [0; 0x40400000; 0];
            sp_yaw := [0; 0];
            setEmergency := false; resetEmergency := false |}
         0 0 0 0 4).
Proof.
  apply (C3_velocity_packet_decode 0x3F800000 0x40000000 0x40400000 0x3F000000
           (repeat x00 13) first_call).
  - left. reflexivity.
  - lia.
  - lia.
  - lia.
  - lia.
Defined.

(** Any four bytes are the little-endian layout of one 32-bit pattern,
    so the packets of the statements below are all the type-1 packets
    with a 16-byte payload. *)
Lemma byte_of_to_Z (b : byte) : byte_of_Z (byte_to_Z b) = b.
Proof.
  unfold byte_of_Z, byte_to_Z.
  pose proof (Byte.to_N_bounded b) as Hb.
  rewrite Z.mod_small by lia. rewrite N2Z.id, Byte.of_to_N. reflexivity.
Qed.

Lemma byte_of_Z_low (b : byte) (k : Z) : byte_of_Z (byte_to_Z b + 256 * k) = b.
Proof.
  rewrite <- (byte_of_to_Z b) at 2. unfold byte_of_Z.
  replace ((byte_to_Z b + 256 * k) mod 256) with (byte_to_Z b mod 256);
    [reflexivity|].
  rewrite Z.mul_comm, Z.mod_add by discriminate. reflexivity.
Qed.

Lemma float_bytes_cover (b0 b1 b2 b3 : byte) :
  exists v, 0 <= v < 2 ^ 32 /\ float_bytes v = [b0; b1; b2; b3].
Proof.
  pose proof (byte_to_Z_range b0). pose proof (byte_to_Z_range b1).
  pose proof (byte_to_Z_range b2). pose proof (byte_to_Z_range b3).
  exists (byte_to_Z b0
          + 256 * (byte_to_Z b1 + 256 * (byte_to_Z b2 + 256 * (byte_to_Z b3 + 256 * 0)))).
  split; [change (2 ^ 32) with 4294967296; lia|].
  unfold float_bytes. cbn [le_bytes].
  repeat (rewrite byte_of_Z_low;
          rewrite (Z.add_comm (byte_to_Z _) (256 * _)), Z.mul_comm, Z.div_add_l by discriminate;
          rewrite (Z.div_small (byte_to_Z _) 256), Z.add_0_r by (apply byte_to_Z_range)).
  rewrite byte_of_Z_low. reflexivity.
Qed.

(** C10. A type-1 packet whose 16-byte payload is the little-endian
    floats [vx], [vy], [vz], [yawrate] is decoded with the three
    velocities of the packet written twice: into the dedicated fields
    [velocity.x], [velocity.y], [velocity.z] and into the term-1 slots
    [x[1]], [y[1]], [z[1]].  Afterwards each of the six holds the float
    the sender put on the wire, so [velocity.x = x[1]],
    [velocity.y = y[1]] and [velocity.z = z[1]]. *)
Theorem C10_velocity_fields_mirror_term1
    (vx vy vz yawrate : Z) (rest : list byte) (m : machine) :
  nTypes_ok m ->
  0 <= vx < 2 ^ 32 -> 0 <= vy < 2 ^ 32 -> 0 <= vz < 2 ^ 32 ->
  0 <= yawrate < 2 ^ 32 ->
  exists m',
    crtpCommanderGenericDecodeSetpoint
      (mkCRTPPacket 17
         (byte_of_Z velocityWorldType
          :: float_bytes vx ++ float_bytes vy ++ float_bytes vz
             ++ float_bytes yawrate ++ rest)) m
    = Returns tt m'
    /\ velocity_x (velocity (the_setpoint m')) = vx
    /\ velocity_y (velocity (the_setpoint m')) = vy
    /\ velocity_z (velocity (the_setpoint m')) = vz
    /\ array_get (sp_x (the_setpoint m')) 1 = vx
    /\ array_get (sp_y (the_setpoint m')) 1 = vy
    /\ array_get (sp_z (the_setpoint m')) 1 = vz
    /\ velocity_x (velocity (the_setpoint m')) = array_get (sp_x (the_setpoint m')) 1
    /\ velocity_y (velocity (the_setpoint m')) = array_get (sp_y (the_setpoint m')) 1
    /\ velocity_z (velocity (the_setpoint m')) = array_get (sp_z (the_setpoint m')) 1.
Proof.
  intros Hn Hx Hy Hz Hw.
  rewrite dispatch_velocity; [|assumption|reflexivity|reflexivity].
  rewrite run_velocityDecoder.
  change (17 - 1 =? sizeof_velocityPacket_s) with true. cbv iota.
  destruct (velocityPacket_fields vx vy vz yawrate rest Hx Hy Hz Hw)
    as (Ex & Ey & Ez & _).
  eexists. split; [reflexivity|].
  unfold payload.
  cbn [data skipn the_setpoint decoded_velocity velocity velocity_x velocity_y
       velocity_z sp_x sp_y sp_z array_get nth].
  rewrite Ex, Ey, Ez.
  refine (conj _ (conj _ (conj _ (conj _ (conj _ (conj _ (conj _ (conj _ _))))))));
    reflexivity.
Qed.

(** The velocities 1.0, 2.0 and 3.0 (0x3F800000, 0x40000000,
    0x40400000) with yaw rate 0.5. *)
Lemma C10_witness :
  exists m',
    crtpCommanderGenericDecodeSetpoint
      (mkCRTPPacket 17
         (byte_of_Z velocityWorldType
          :: float_bytes 0x3F800000 ++ float_bytes 0x40000000
             ++ float_bytes 0x40400000 ++ float_bytes 0x3F000000
             ++ repeat x00 13)) first_call
    = Returns tt m'
    /\ velocity_x (velocity (the_setpoint m')) = 0x3F800000
    /\ velocity_y (velocity (the_setpoint m')) = 0x40000000
    /\ velocity_z (velocity (the_setpoint m')) = 0x40400000
    /\ array_get (sp_x (the_setpoint m')) 1 = 0x3F800000
    /\ array_get (sp_y (the_setpoint m')) 1 = 0x40000000
    /\ array_get (sp_z (the_setpoint m')) 1 = 0x40400000
    /\ velocity_x (velocity (the_setpoint m')) = array_get (sp_x (the_setpoint m')) 1
    /\ velocity_y (velocity (the_setpoint m')) = array_get (sp_y (the_setpoint m')) 1
    /\ velocity_z (velocity (the_setpoint m')) = array_get (sp_z (the_setpoint m')) 1.
Proof.
  apply (C10_velocity_fields_mirror_term1 0x3F800000 0x40000000 0x40400000
           0x3F000000 (repeat x00 13) first_call).
  - left. reflexivity.
  - lia.
  - lia.
  - lia.
  - lia.
Defined.

(** ** The full-control packet *)

Lemma load_u16_terms (terms : list Z) (rest : list byte) (i : nat) :
  Forall (fun v => 0 <= v < 2 ^ 16) terms ->
  (i < length terms)%nat ->
  load_u16 (flat_map half_bytes terms ++ rest) (2 * Z.of_nat i) = nth i terms 0.
Proof.
  intros Hr. revert i.
  induction Hr as [|t ts Ht Hts IH]; intros i Hi; cbn [length] in Hi; [lia|].
  cbn [flat_map]. rewrite <- app_assoc.
  destruct i as [|i].
  - apply load_u16_le_bytes, Ht.
  - replace (2 * Z.of_nat (S i)) with (2 + 2 * Z.of_nat i) by lia.
    rewrite load_u16_skip by lia. cbn [nth]. apply IH. lia.
Qed.

Section FullControlWire.
Variables (header : Z) (terms : list Z) (rest : list byte).
Hypothesis header_range : 0 <= header < 2 ^ 16.
Hypothesis terms_range : Forall (fun v => 0 <= v < 2 ^ 16) terms.

Let d : list byte := half_bytes header ++ flat_map half_bytes terms ++ rest.

Lemma wire_header : load_u16 d 0 = header.
Proof. apply load_u16_le_bytes, header_range. Qed.

Lemma wire_term (off : Z) (i : nat) :
  (i < length terms)%nat -> off = 2 + 2 * Z.of_nat i ->
  load_u16 d off = nth i terms 0.
Proof.
  intros Hi ->. unfold d. rewrite load_u16_skip by lia.
  apply load_u16_terms; assumption.
Qed.

Lemma wire_x (i : nat) :
  (i < length terms)%nat -> packet_x d i = nth i terms 0.
Proof. intros Hi. apply wire_term; [assumption | reflexivity]. Qed.

Lemma wire_y (i : nat) :
  (3 + i < length terms)%nat -> packet_y d i = nth (3 + i) terms 0.
Proof.
  intros Hi. apply wire_term; [assumption|].
  unfold offsetof_y, offsetof_x, sizeof_fullControlPacketHeader_t. lia.
Qed.

Lemma wire_z (i : nat) :
  (6 + i < length terms)%nat -> packet_z d i = nth (6 + i) terms 0.
Proof.
  intros Hi. apply wire_term; [assumption|].
  unfold offsetof_z, offsetof_y, offsetof_x, sizeof_fullControlPacketHeader_t. lia.
Qed.

Lemma wire_yaw (i : nat) :
  (9 + i < length terms)%nat -> packet_yaw d i = nth (9 + i) terms 0.
Proof.
  intros Hi. apply wire_term; [assumption|].
  unfold offsetof_yaw, offsetof_z, offsetof_y, offsetof_x,
    sizeof_fullControlPacketHeader_t. lia.
Qed.
End FullControlWire.

Lemma flag_of_bitfield (h pos : Z) :
  0 <= pos -> flag_of (bitfield h pos 1) = Z.testbit h pos.
Proof.
  intros Hp. rewrite bitfield_div_mod by lia.
  change (2 ^ 1) with 2. rewrite <- Z.testbit_spec' by assumption.
  destruct (Z.testbit h pos); reflexivity.
Qed.

(** The dispatcher on a type-3 packet of the right size. *)
Lemma decode_fullControl (pk : CRTPPacket) (m : machine) :
  nTypes_ok m -> size pk = 25 -> packet_type pk = fullControlType ->
  crtpCommanderGenericDecodeSetpoint pk m =
  Returns tt
    (mkMachine (decoded_fullControl (payload pk)) (wrap32 (debugCount m + 1))
       (half2single (packet_x (payload pk) 0)) (half2single (packet_y (payload pk) 0))
       (half2single (packet_z (payload pk) 0)) 4).
Proof.
  intros Hn Hs Ht.
  rewrite dispatch_fullControl by (try assumption; lia).
  rewrite run_fullControlDecoder, Hs. reflexivity.
Qed.

(** C4, as the code has it: the payload of a type-3 packet is the 24
    bytes of [fullControlPacket_t], a 2-byte header followed by 11
    half-floats (3 for x, 3 for y, 3 for z, 2 for yaw).  Decoding it
    stores the three 3-bit mode codes of the header, untranslated, into
    the numeric mode fields [xmode], [ymode], [zmode]; stores header
    bits 1 and 2 into [setEmergency] and [resetEmergency]; and stores
    the 11 values, each passed through [half2single] on its own, in
    order into [x[0..2]], [y[0..2]], [z[0..2]], [yaw[0..1]].  The call
    returns, with the diagnostics updated. *)
Theorem C4_fullControl_packet_decode
    (header : Z) (terms : list Z) (rest : list byte) (m : machine) :
  nTypes_ok m ->
  0 <= header < 2 ^ 16 ->
  length terms = 11%nat ->
  Forall (fun v => 0 <= v < 2 ^ 16) terms ->
  crtpCommanderGenericDecodeSetpoint
    (mkCRTPPacket 25
       (byte_of_Z fullControlType
        :: half_bytes header ++ flat_map half_bytes terms ++ rest)) m
  = Returns tt
      (mkMachine
         {| mode := mkMode modeDisable modeDisable modeDisable modeDisable;
            velocity := mkVelocity 0 0 0;
            attitudeRate_yaw := 0;
            xmode := (header / 2 ^ 3) mod 2 ^ 3;
            ymode := (header / 2 ^ 6) mod 2 ^ 3;
            zmode := (header / 2 ^ 9) mod 2 ^ 3;
            sp_x := map half2single (firstn 3 terms);
            sp_y := map half2single (firstn 3 (skipn 3 terms));
            sp_z := map half2single (firstn 3 (skipn 6 terms));
            sp_yaw := map half2single (firstn 2 (skipn 9 terms));
            setEmergency := Z.testbit header 1;
            resetEmergency := Z.testbit header 2 |}
         (wrap32 (debugCount m + 1))
         (half2single (nth 0 terms 0)) (half2single (nth 3 terms 0))
         (half2single (nth 6 terms 0)) 4).
Proof.
  intros Hn Hh Hl Hr.
  rewrite decode_fullControl; [|assumption|reflexivity|reflexivity].
  unfold payload, decoded_fullControl. cbn [data skipn map].
  rewrite (wire_header header terms rest Hh).
  rewrite !(wire_x header terms rest Hr) by lia.
  rewrite !(wire_y header terms rest Hr) by lia.
  rewrite !(wire_z header terms rest Hr) by lia.
  rewrite !(wire_yaw header terms rest Hr) by lia.
  unfold controlModeX, controlModeY, controlModeZ,
    header_setEmergency, header_resetEmergency.
  rewrite !flag_of_bitfield, !bitfield_div_mod by lia.
  do 11 (destruct terms as [|? terms]; [discriminate Hl|]).
  destruct terms; [|discriminate Hl].
  reflexivity.
Qed.

Lemma example_fullControl_24_decoded :
  crtpCommanderGenericDecodeSetpoint example_fullControl_24 first_call
  = Returns tt
      (mkMachine
         {| mode := mkMode modeDisable modeDisable modeDisable modeDisable;
            velocity := mkVelocity 0 0 0;
            attitudeRate_yaw := 0;
            xmode := 1; ymode := 2; zmode := 3;
            sp_x := [0x3F000000; 0x3F800000; 0xC0000000];
            sp_y := [0x3F000000; 0x3F800000; 0xC0000000];
            sp_z := [0x3F000000; 0x3F800000; 0xC0000000];
            sp_yaw := [0x3F000000; 0x3F800000];
            setEmergency := true;
            resetEmergency := false |}
         1 0x3F000000 0x3F000000 0x3F000000 4).
Proof. vm_compute. reflexivity. Qed.

Lemma C4_witness :
  crtpCommanderGenericDecodeSetpoint example_fullControl_24 first_call
  = Returns tt
      (mkMachine
         {| mode := mkMode modeDisable modeDisable modeDisable modeDisable;
            velocity := mkVelocity 0 0 0;
            attitudeRate_yaw := 0;
            xmode := 1; ymode := 2; zmode := 3;
            sp_x := [0x3F000000; 0x3F800000; 0xC0000000];
            sp_y := [0x3F000000; 0x3F800000; 0xC0000000];
            sp_z := [0x3F000000; 0x3F800000; 0xC0000000];
            sp_yaw := [0x3F000000; 0x3F800000];
            setEmergency := true;
            resetEmergency := false |}
         1 0x3F000000 0x3F000000 0x3F000000 4).
Proof.
  apply (C4_fullControl_packet_decode example_header
           [0x3800; 0x3C00; 0xC000; 0x3800; 0x3C00; 0xC000;
            0x3800; 0x3C00; 0xC000; 0x3800; 0x3C00]
           (repeat x00 5) first_call).
  - left. reflexivity.
  - vm_compute. split; [discriminate | reflexivity].
  - reflexivity.
  - repeat constructor; try discriminate; reflexivity.
Defined.

(** C4 as stated fails: a type-3 packet with an 18-byte payload (a
    header and 8 half-floats) is not decoded at all, the call stops in
    the length assertion of [fullControlDecoder] with the setpoint still
    neutral. *)
Lemma C4_counterexample :
  size example_fullControl_18 - 1 = 18
  /\ packet_type example_fullControl_18 = fullControlType
  /\ crtpCommanderGenericDecodeSetpoint example_fullControl_18 first_call
     = Aborts 148 (neutralized first_call).
Proof. repeat split. Qed.

(** C2 as stated fails: it takes 18 bytes to be the length a type-3
    payload must have, yet a payload of 24 bytes is decoded, and the
    call returns with the setpoint written. *)
Lemma C2_counterexample :
  packet_type example_fullControl_24 = fullControlType
  /\ size example_fullControl_24 - 1 <> 18
  /\ exists m',
       crtpCommanderGenericDecodeSetpoint example_fullControl_24 first_call
       = Returns tt m'
       /\ xmode (the_setpoint m') = 1
       /\ the_setpoint m' <> neutral_setpoint.
Proof.
  split; [reflexivity|]. split; [vm_compute; discriminate|].
  eexists. split; [apply example_fullControl_24_decoded|].
  split; [reflexivity | discriminate].
Qed.

(** The fields of the header a sender packed at the documented bit
    positions. *)
Lemma header_fields (ext se re : bool) (mx my mz pad : Z) :
  0 <= mx < 8 -> 0 <= my < 8 -> 0 <= mz < 8 -> 0 <= pad < 16 ->
  let h := pack_header ext se re mx my mz pad in
  0 <= h < 2 ^ 16
  /\ packetHasExternalReference h = Z.b2z ext
  /\ flag_of (header_setEmergency h) = se
  /\ flag_of (header_resetEmergency h) = re
  /\ controlModeX h = mx /\ controlModeY h = my /\ controlModeZ h = mz.
Proof.
  intros Hx Hy Hz Hp h. subst h.
  unfold packetHasExternalReference, header_setEmergency, header_resetEmergency,
    controlModeX, controlModeY, controlModeZ.
  rewrite !bitfield_div_mod by lia.
  unfold pack_header, flag_of.
  change (2 ^ 0) with 1. change (2 ^ 1) with 2. change (2 ^ 2) with 4.
  change (2 ^ 3) with 8. change (2 ^ 6) with 64. change (2 ^ 9) with 512.
  change (2 ^ 16) with 65536.
  destruct ext, se, re; cbn [Z.b2z];
    repeat split;
    try lia;
    try (Z.div_mod_to_equations; lia);
    match goal with
    | |- negb (?a mod 2 =? 0) = true =>
        replace (a mod 2) with 1 by (Z.div_mod_to_equations; lia); reflexivity
    | |- negb (?a mod 2 =? 0) = false =>
        replace (a mod 2) with 0 by (Z.div_mod_to_equations; lia); reflexivity
    end.
Qed.

(** C5. The header of a type-3 packet is one little-endian 16-bit word
    with [packetHasExternalReference] at bit 0, [setEmergency] at bit 1,
    [resetEmergency] at bit 2, [controlModeX] at bits 3-5,
    [controlModeY] at bits 6-8, [controlModeZ] at bits 9-11 and bits
    12-15 unused.  Whatever a sender packs there, each mode code 0..7
    comes back exactly in [xmode], [ymode], [zmode], and each emergency
    bit comes back in its flag, whatever the other header bits (the
    external-reference bit and the padding included) and the body
    hold. *)
Theorem C5_header_bit_positions
    (ext se re : bool) (mx my mz pad : Z) (body : list byte) (m : machine) :
  nTypes_ok m ->
  0 <= mx < 8 -> 0 <= my < 8 -> 0 <= mz < 8 -> 0 <= pad < 16 ->
  exists m',
    crtpCommanderGenericDecodeSetpoint
      (mkCRTPPacket 25
         (byte_of_Z fullControlType
          :: half_bytes (pack_header ext se re mx my mz pad) ++ body)) m
    = Returns tt m'
    /\ xmode (the_setpoint m') = mx
    /\ ymode (the_setpoint m') = my
    /\ zmode (the_setpoint m') = mz
    /\ setEmergency (the_setpoint m') = se
    /\ resetEmergency (the_setpoint m') = re.
Proof.
  intros Hn Hx Hy Hz Hp.
  destruct (header_fields ext se re mx my mz pad Hx Hy Hz Hp)
    as (Hh & _ & Hse & Hre & Hmx & Hmy & Hmz).
  eexists. split.
  - apply decode_fullControl; [assumption | reflexivity | reflexivity].
  - unfold payload. cbn [data skipn the_setpoint decoded_fullControl
                         xmode ymode zmode setEmergency resetEmergency].
    rewrite (load_u16_le_bytes _ body Hh).
    repeat split; assumption.
Qed.

Lemma C5_witness :
  exists m',
    crtpCommanderGenericDecodeSetpoint
      (mkCRTPPacket 25
         (byte_of_Z fullControlType
          :: half_bytes (pack_header true false true 7 0 5 15) ++ repeat xff 27)) first_call
    = Returns tt m'
    /\ xmode (the_setpoint m') = 7
    /\ ymode (the_setpoint m') = 0
    /\ zmode (the_setpoint m') = 5
    /\ setEmergency (the_setpoint m') = false
    /\ resetEmergency (the_setpoint m') = true.
Proof.
  apply (C5_header_bit_positions true false true 7 0 5 15 (repeat xff 27) first_call).
  - left. reflexivity.
  - lia.
  - lia.
  - lia.
  - lia.
Defined.

(** C7. A call that decodes a type-3 packet and returns has added one
    to the [uint32_t] counter [debugCount] (exported as
    [packetsReceived]; its successor modulo 2^32, hence exactly
    [debugCount + 1] below the top of the range) and has stored the
    first terms just decoded, [x[0]], [y[0]], [z[0]], into [testValueX],
    [testValueY], [testValueZ].  Nothing is read back from these
    diagnostics: the setpoint and the three samples come out the same
    from any other memory, whatever its diagnostics hold.  Such a call
    has a packet of size 25 (the type byte and 24 bytes of payload). *)
Theorem C7_fullControl_diagnostics (pk : CRTPPacket) (m m' : machine) :
  nTypes_ok m ->
  packet_type pk = fullControlType ->
  crtpCommanderGenericDecodeSetpoint pk m = Returns tt m' ->
  size pk = 25
  /\ debugCount m' = wrap32 (debugCount m + 1)
  /\ (debugCount_ok m -> debugCount m + 1 < 2 ^ 32 -> debugCount m' = debugCount m + 1)
  /\ testValueX m' = array_get (sp_x (the_setpoint m')) 0
  /\ testValueY m' = array_get (sp_y (the_setpoint m')) 0
  /\ testValueZ m' = array_get (sp_z (the_setpoint m')) 0
  /\ testValueX m' = half2single (packet_x (payload pk) 0)
  /\ testValueY m' = half2single (packet_y (payload pk) 0)
  /\ testValueZ m' = half2single (packet_z (payload pk) 0)
  /\ forall m2, nTypes_ok m2 ->
       exists m2',
         crtpCommanderGenericDecodeSetpoint pk m2 = Returns tt m2'
         /\ the_setpoint m2' = the_setpoint m'
         /\ testValueX m2' = testValueX m'
         /\ testValueY m2' = testValueY m'
         /\ testValueZ m2' = testValueZ m'.
Proof.
  intros Hn Ht Hrun.
  assert (Hs : size pk = 25).
  { destruct (Z.eq_dec (size pk) 25) as [E | E]; [exact E | exfalso].
    destruct (Z_lt_le_dec 0 (size pk)) as [Hpos | Hneg].
    - rewrite dispatch_fullControl, run_fullControlDecoder in Hrun by assumption.
      replace (size pk - 1 =? sizeof_fullControlPacket_t) with false in Hrun.
      + discriminate Hrun.
      + symmetry. apply Z.eqb_neq. change sizeof_fullControlPacket_t with 24. lia.
    - unfold crtpCommanderGenericDecodeSetpoint, bind, ASSERT in Hrun.
      apply Z.ltb_ge in Hneg. rewrite Hneg in Hrun. discriminate Hrun. }
  split; [exact Hs|].
  rewrite decode_fullControl in Hrun by assumption.
  injection Hrun as <-.
  cbn [debugCount testValueX testValueY testValueZ the_setpoint
       decoded_fullControl sp_x sp_y sp_z map array_get nth].
  repeat split.
  - intros [H0 _] H1. unfold wrap32. apply Z.mod_small. lia.
  - intros m2 Hn2. eexists. split.
    + apply decode_fullControl; assumption.
    + repeat split.
Qed.

Lemma C7_witness :
  let m' :=
    mkMachine
      {| mode := mkMode modeDisable modeDisable modeDisable modeDisable;
         velocity := mkVelocity 0 0 0;
         attitudeRate_yaw := 0;
         xmode := 1; ymode := 2; zmode := 3;
         sp_x := [0x3F000000; 0x3F800000; 0xC0000000];
         sp_y := [0x3F000000; 0x3F800000; 0xC0000000];
         sp_z := [0x3F000000; 0x3F800000; 0xC0000000];
         sp_yaw := [0x3F000000; 0x3F800000];
         setEmergency := true;
         resetEmergency := false |}
      1 0x3F000000 0x3F000000 0x3F000000 4 in
  crtpCommanderGenericDecodeSetpoint example_fullControl_24 first_call = Returns tt m'
  /\ debugCount m' = wrap32 (debugCount first_call + 1)
  /\ testValueX m' = array_get (sp_x (the_setpoint m')) 0
  /\ testValueY m' = array_get (sp_y (the_setpoint m')) 0
  /\ testValueZ m' = array_get (sp_z (the_setpoint m')) 0.
Proof.
  intros m'.
  assert (Hrun : crtpCommanderGenericDecodeSetpoint example_fullControl_24 first_call
                 = Returns tt m') by (vm_compute; reflexivity).
  split; [exact Hrun|].
  destruct (C7_fullControl_diagnostics example_fullControl_24 first_call m'
              (or_introl eq_refl) eq_refl Hrun)
    as (_ & Hc & _ & Hx & Hy & Hz & _).
  exact (conj Hc (conj Hx (conj Hy Hz))).
Defined.

(** C9. Decoding a type-3 packet of the right length writes the numeric
    modes [xmode], [ymode], [zmode] but none of the enumerated modes:
    [mode.x], [mode.y], [mode.z] and [mode.yaw] keep the zero the
    [memset] gave them (the first enumerator), and [velocity] and
    [attitudeRate] stay zero too. *)
Theorem C9_fullControl_leaves_enumerated_modes (pk : CRTPPacket) (m : machine) :
  nTypes_ok m ->
  size pk = sizeof_fullControlPacket_t + 1 ->
  packet_type pk = fullControlType ->
  exists m',
    crtpCommanderGenericDecodeSetpoint pk m = Returns tt m'
    /\ mode (the_setpoint m') = mkMode modeDisable modeDisable modeDisable modeDisable
    /\ velocity (the_setpoint m') = mkVelocity 0 0 0
    /\ attitudeRate_yaw (the_setpoint m') = 0
    /\ xmode (the_setpoint m') = controlModeX (load_u16 (payload pk) 0)
    /\ ymode (the_setpoint m') = controlModeY (load_u16 (payload pk) 0)
    /\ zmode (the_setpoint m') = controlModeZ (load_u16 (payload pk) 0).
Proof.
  intros Hn Hs Ht. eexists. split.
  - apply decode_fullControl; assumption.
  - repeat split.
Qed.

Lemma C9_witness :
  exists m',
    crtpCommanderGenericDecodeSetpoint example_fullControl_24 first_call = Returns tt m'
    /\ mode (the_setpoint m') = mkMode modeDisable modeDisable modeDisable modeDisable
    /\ velocity (the_setpoint m') = mkVelocity 0 0 0
    /\ attitudeRate_yaw (the_setpoint m') = 0
    /\ xmode (the_setpoint m') = controlModeX (load_u16 (payload example_fullControl_24) 0)
    /\ ymode (the_setpoint m') = controlModeY (load_u16 (payload example_fullControl_24) 0)
    /\ zmode (the_setpoint m') = controlModeZ (load_u16 (payload example_fullControl_24) 0).
Proof.
  apply (C9_fullControl_leaves_enumerated_modes example_fullControl_24 first_call).
  - left. reflexivity.
  - reflexivity.
  - reflexivity.
Defined.

(** The memory stays well-formed from call to call. *)
Lemma decode_preserves_nTypes_ok (pk : CRTPPacket) (m : machine) :
  nTypes_ok m ->
  match crtpCommanderGenericDecodeSetpoint pk m with
  | Returns _ m' => nTypes_ok m'
  | Aborts _ m' => nTypes_ok m'
  end.
Proof.
  intros Hn.
  destruct (Z_lt_le_dec 0 (size pk)) as [Hpos | Hneg].
  - rewrite dispatch by assumption.
    destruct (packet_type pk <? Z.of_nat (length packetDecoders)); [|right; reflexivity].
    destruct (Z.to_nat (packet_type pk)) as [|[|[|[|k]]]]; cbn [nth packetDecoders].
    + right. reflexivity.
    + rewrite run_velocityDecoder.
      destruct (size pk - 1 =? sizeof_velocityPacket_s); right; reflexivity.
    + right. reflexivity.
    + rewrite run_fullControlDecoder.
      destruct (size pk - 1 =? sizeof_fullControlPacket_t); right; reflexivity.
    + destruct k; right; reflexivity.
  - unfold crtpCommanderGenericDecodeSetpoint, bind, ASSERT.
    apply Z.ltb_ge in Hneg. rewrite Hneg. exact Hn.
Qed.

Lemma initial_machine_ok (sp : setpoint_t) :
  nTypes_ok (initial_machine sp) /\ debugCount_ok (initial_machine sp).
Proof. split; [left; reflexivity | unfold debugCount_ok; cbn; lia]. Qed.

(** ** The half-precision codec *)

(** *** Fields of bit patterns *)

Lemma half_fields (h : Z) :
  0 <= h < 2 ^ 16 ->
  let s := h / 2 ^ 15 in
  let e := (h / 2 ^ 10) mod 2 ^ 5 in
  let f := h mod 2 ^ 10 in
  bitfield h 15 1 = s /\ bitfield h 10 5 = e /\ bitfield h 0 10 = f
  /\ 0 <= s <= 1 /\ 0 <= e < 32 /\ 0 <= f < 2 ^ 10.
Proof.
  intros Hh s e f. subst s e f.
  rewrite !bitfield_div_mod by lia.
  change (2 ^ 0) with 1. change (2 ^ 1) with 2. change (2 ^ 5) with 32.
  change (2 ^ 10) with 1024. change (2 ^ 15) with 32768.
  change (2 ^ 16) with 65536 in Hh.
  repeat split; Z.div_mod_to_equations; lia.
Qed.

Lemma single_fields (s e f : Z) :
  0 <= s <= 1 -> 0 <= e < 2 ^ 8 -> 0 <= f < 2 ^ 23 ->
  let w := single_of_fields s e f in
  0 <= w < 2 ^ 32
  /\ w / 2 ^ 31 = s /\ (w / 2 ^ 23) mod 2 ^ 8 = e /\ w mod 2 ^ 23 = f.
Proof.
  intros Hs He Hf w. subst w. unfold single_of_fields.
  change (2 ^ 8) with 256 in *. change (2 ^ 23) with 8388608 in *.
  change (2 ^ 31) with 2147483648. change (2 ^ 32) with 4294967296.
  repeat split; Z.div_mod_to_equations; lia.
Qed.

Lemma single_unfields (w : Z) :
  0 <= w < 2 ^ 32 ->
  let s := w / 2 ^ 31 in
  let e := (w / 2 ^ 23) mod 2 ^ 8 in
  let f := w mod 2 ^ 23 in
  w = single_of_fields s e f
  /\ 0 <= s <= 1 /\ 0 <= e < 2 ^ 8 /\ 0 <= f < 2 ^ 23.
Proof.
  intros Hw s e f. subst s e f. unfold single_of_fields.
  change (2 ^ 8) with 256 in *. change (2 ^ 23) with 8388608 in *.
  change (2 ^ 31) with 2147483648. change (2 ^ 32) with 4294967296 in Hw.
  repeat split; Z.div_mod_to_equations; lia.
Qed.

(** What a binary32 pattern built from its fields denotes. *)
Lemma binary32_of_fields (s e f : Z) :
  0 <= s <= 1 -> 0 <= e < 2 ^ 8 -> 0 <= f < 2 ^ 23 ->
  binary32 (single_of_fields s e f) =
  if e =? 255 then
    if f =? 0 then S754_infinity (Z.odd s) else S754_nan
  else if e =? 0 then
    match f with
    | Zpos m => S754_finite (Z.odd s) m (-149)
    | _ => S754_zero (Z.odd s)
    end
  else
    match 2 ^ 23 + f with
    | Zpos m => S754_finite (Z.odd s) m (e - 150)
    | _ => S754_nan
    end.
Proof.
  intros Hs He Hf.
  destruct (single_fields s e f Hs He Hf) as (_ & Es & Ee & Ef).
  unfold binary32, SF_of_bits.
  change (8 + 23) with 31. rewrite Es, Ee, Ef.
  change (2 ^ 8 - 1) with 255.
  change (1 - (2 ^ (8 - 1) - 1) - 23) with (-149).
  replace (e - (2 ^ (8 - 1) - 1) - 23) with (e - 150) by (change (2 ^ (8 - 1)) with 128; lia).
  reflexivity.
Qed.

(** What a binary16 pattern denotes, by its fields. *)
Lemma binary16_by_fields (h : Z) :
  binary16 h =
  let s := h / 2 ^ 15 in
  let e := (h / 2 ^ 10) mod 2 ^ 5 in
  let f := h mod 2 ^ 10 in
  if e =? 31 then
    if f =? 0 then S754_infinity (Z.odd s) else S754_nan
  else if e =? 0 then
    match f with
    | Zpos m => S754_finite (Z.odd s) m (-24)
    | _ => S754_zero (Z.odd s)
    end
  else
    match 2 ^ 10 + f with
    | Zpos m => S754_finite (Z.odd s) m (e - 25)
    | _ => S754_nan
    end.
Proof.
  unfold binary16, SF_of_bits. cbv zeta.
  change (5 + 10) with 15. change (2 ^ 5 - 1) with 31.
  change (1 - (2 ^ (5 - 1) - 1) - 10) with (-24).
  replace ((h / 2 ^ 10) mod 2 ^ 5 - (2 ^ (5 - 1) - 1) - 10)
    with ((h / 2 ^ 10) mod 2 ^ 5 - 25) by (change (2 ^ (5 - 1)) with 16; lia).
  reflexivity.
Qed.

(** *** Values *)

Lemma Qpow2_split (e k : Z) : (2 ^ e == 2 ^ k * 2 ^ (e - k))%Q.
Proof.
  rewrite <- Qpower_plus by discriminate.
  replace (k + (e - k)) with e by lia. reflexivity.
Qed.

(** Moving a power of two between the mantissa and the exponent does
    not change the value. *)
Lemma finite_value_shift (s : bool) (m m' : positive) (e k : Z) :
  0 <= k -> Zpos m' = Zpos m * 2 ^ k ->
  (finite_value s m' (e - k) == finite_value s m e)%Q.
Proof.
  intros Hk Hm. unfold finite_value.
  rewrite Hm, inject_Z_mult, Zpower_Qpower by assumption.
  rewrite (Qpow2_split e k).
  change (inject_Z 2) with 2%Q. ring.
Qed.

(** A finite value in units of 2^-149, the smallest positive binary32
    number: an integer for every binary16 and binary32 float. *)
Lemma finite_value_units (s : bool) (m : positive) (e : Z) :
  -149 <= e ->
  (finite_value s m e
   == (if s then -1 else 1) * inject_Z (Zpos m * 2 ^ (e + 149)) * 2 ^ (-149))%Q.
Proof.
  intros He. unfold finite_value.
  rewrite inject_Z_mult, Zpower_Qpower by lia.
  rewrite (Qpow2_split e (-149)).
  replace (e - -149) with (e + 149) by lia.
  change (inject_Z 2) with 2%Q. ring.
Qed.

Lemma finite_value_inj (s s' : bool) (m m' : positive) (e e' : Z) :
  -149 <= e -> -149 <= e' ->
  (finite_value s m e == finite_value s' m' e')%Q ->
  s = s' /\ Zpos m * 2 ^ (e + 149) = Zpos m' * 2 ^ (e' + 149).
Proof.
  intros He He' H.
  rewrite (finite_value_units s m e He), (finite_value_units s' m' e' He') in H.
  apply Qmult_inj_r in H; [|discriminate].
  assert (0 < Zpos m * 2 ^ (e + 149)).
  { apply Z.mul_pos_pos; [lia | apply Z.pow_pos_nonneg; lia]. }
  assert (0 < Zpos m' * 2 ^ (e' + 149)).
  { apply Z.mul_pos_pos; [lia | apply Z.pow_pos_nonneg; lia]. }
  revert H.
  generalize dependent (Zpos m * 2 ^ (e + 149)).
  generalize dependent (Zpos m' * 2 ^ (e' + 149)).
  intros u' Hu' u Hu H.
  assert (Hs : forall (b : bool) (v : Z),
             ((if b then -1 else 1) * inject_Z v
              == inject_Z ((if b then -1 else 1) * v))%Q).
  { intros [] v; rewrite inject_Z_mult; reflexivity. }
  rewrite !Hs in H. apply (proj1 (inject_Z_injective _ _)) in H.
  destruct s, s'; cbv iota in H; try (exfalso; lia); split; try reflexivity; lia.
Qed.

(** [SFsame] is symmetric and transitive. *)
Lemma SFsame_sym (x y : spec_float) : SFsame x y -> SFsame y x.
Proof.
  destruct x, y; cbn; intros H; try exact H; try (symmetry; exact H).
Qed.

Lemma SFsame_trans (x y z : spec_float) : SFsame x y -> SFsame y z -> SFsame x z.
Proof.
  destruct x, y, z; cbn; intros H1 H2;
    try exact I; try contradiction; try congruence.
  exact (Qeq_trans _ _ _ H1 H2).
Qed.

(** *** Decoding keeps the datum *)

Lemma half2single_by_fields (h : Z) :
  0 <= h < 2 ^ 16 ->
  half2single h =
  let s := h / 2 ^ 15 in
  let e := (h / 2 ^ 10) mod 2 ^ 5 in
  let f := h mod 2 ^ 10 in
  if e =? 31 then single_of_fields s 255 (f * 2 ^ 13)
  else if e =? 0 then
    if f =? 0 then single_of_fields s 0 0
    else single_of_fields s (Z.log2 f - 24 + 127)
           ((f - 2 ^ Z.log2 f) * 2 ^ (23 - Z.log2 f))
  else single_of_fields s (e - 15 + 127) (f * 2 ^ 13).
Proof.
  intros Hh. destruct (half_fields h Hh) as (Es & Ee & Ef & _).
  unfold half2single. rewrite Es, Ee, Ef. reflexivity.
Qed.

(** The fraction of a subnormal half, normalised. *)
Lemma subnormal_fraction (f : Z) :
  0 < f < 2 ^ 10 ->
  let p := Z.log2 f in
  0 <= p <= 9
  /\ 0 <= (f - 2 ^ p) * 2 ^ (23 - p) < 2 ^ 23
  /\ 2 ^ 23 + (f - 2 ^ p) * 2 ^ (23 - p) = f * 2 ^ (23 - p).
Proof.
  intros Hf p.
  assert (Hp : 0 <= p <= 9).
  { split; [apply Z.log2_nonneg|].
    assert (p < 10) by (apply Z.log2_lt_pow2; lia). lia. }
  destruct (Z.log2_spec f ltac:(lia)) as [Hlo Hhi]. fold p in Hlo, Hhi.
  assert (Hpow : 2 ^ p * 2 ^ (23 - p) = 2 ^ 23).
  { rewrite <- Z.pow_add_r by lia. f_equal. lia. }
  replace (2 ^ Z.succ p) with (2 * 2 ^ p) in Hhi by (rewrite Z.pow_succ_r; lia).
  assert (0 < 2 ^ p) by (apply Z.pow_pos_nonneg; lia).
  assert (0 < 2 ^ (23 - p)) by (apply Z.pow_pos_nonneg; lia).
  split; [exact Hp|]. rewrite <- Hpow. split; nia.
Qed.

Lemma half2single_range (h : Z) :
  0 <= h < 2 ^ 16 -> 0 <= half2single h < 2 ^ 32.
Proof.
  intros Hh. rewrite (half2single_by_fields h Hh). cbv zeta.
  destruct (half_fields h Hh) as (_ & _ & _ & Hs & He & Hf).
  set (s := h / 2 ^ 15) in *. set (e := (h / 2 ^ 10) mod 2 ^ 5) in *.
  set (f := h mod 2 ^ 10) in *.
  assert (Hf13 : 0 <= f * 2 ^ 13 < 2 ^ 23).
  { change (2 ^ 13) with 8192. change (2 ^ 23) with 8388608.
    change (2 ^ 10) with 1024 in Hf. lia. }
  destruct (e =? 31); [apply single_fields; lia|].
  destruct (e =? 0).
  - destruct (f =? 0) eqn:F0; [apply single_fields; lia|].
    apply Z.eqb_neq in F0.
    destruct (subnormal_fraction f ltac:(lia)) as (Hp & Hfr & _).
    apply single_fields; [lia | change (2 ^ 8) with 256; lia | exact Hfr].
  - apply single_fields; [lia | change (2 ^ 8) with 256; lia | exact Hf13].
Qed.

Lemma half2single_same (h : Z) :
  0 <= h < 2 ^ 16 -> SFsame (binary32 (half2single h)) (binary16 h).
Proof.
  intros Hh. rewrite (half2single_by_fields h Hh), binary16_by_fields. cbv zeta.
  destruct (half_fields h Hh) as (_ & _ & _ & Hs & He & Hf).
  set (s := h / 2 ^ 15) in *. set (e := (h / 2 ^ 10) mod 2 ^ 5) in *.
  set (f := h mod 2 ^ 10) in *.
  assert (Hf13 : 0 <= f * 2 ^ 13 < 2 ^ 23).
  { change (2 ^ 13) with 8192. change (2 ^ 23) with 8388608.
    change (2 ^ 10) with 1024 in Hf. lia. }
  destruct (e =? 31) eqn:E31.
  - (* infinities and NaNs *)
    rewrite binary32_of_fields by (try assumption; change (2 ^ 8) with 256; lia).
    change (255 =? 255) with true. cbv iota.
    destruct (f =? 0) eqn:F0.
    + apply Z.eqb_eq in F0. rewrite F0. reflexivity.
    + apply Z.eqb_neq in F0.
      replace (f * 2 ^ 13 =? 0) with false; [exact I|].
      symmetry. apply Z.eqb_neq. change (2 ^ 13) with 8192. lia.
  - apply Z.eqb_neq in E31. destruct (e =? 0) eqn:E0.
    + destruct (f =? 0) eqn:F0.
      * (* zeros *)
        apply Z.eqb_eq in F0. rewrite F0.
        rewrite binary32_of_fields by (try assumption; change (2 ^ 8) with 256; lia).
        reflexivity.
      * (* subnormal halves become normal singles *)
        apply Z.eqb_neq in F0.
        destruct (subnormal_fraction f ltac:(lia)) as (Hp & Hfr & Hm).
        rewrite binary32_of_fields by (try assumption; change (2 ^ 8) with 256; lia).
        replace (Z.log2 f - 24 + 127 =? 255) with false by (symmetry; apply Z.eqb_neq; lia).
        replace (Z.log2 f - 24 + 127 =? 0) with false by (symmetry; apply Z.eqb_neq; lia).
        rewrite Hm.
        assert (0 < 2 ^ (23 - Z.log2 f)) by (apply Z.pow_pos_nonneg; lia).
        destruct (f * 2 ^ (23 - Z.log2 f)) as [|m32|m32] eqn:E32; try nia.
        destruct f as [|m16|m16] eqn:E16; try lia.
        cbn [SFsame].
        replace (Z.log2 (Z.pos m16) - 24 + 127 - 150)
          with (-24 - (23 - Z.log2 (Z.pos m16))) by lia.
        apply finite_value_shift; [lia | symmetry; exact E32].
    + (* normal halves *)
      apply Z.eqb_neq in E0.
      rewrite binary32_of_fields by (try assumption; change (2 ^ 8) with 256; lia).
      replace (e - 15 + 127 =? 255) with false by (symmetry; apply Z.eqb_neq; lia).
      replace (e - 15 + 127 =? 0) with false by (symmetry; apply Z.eqb_neq; lia).
      assert (Hm : 2 ^ 23 + f * 2 ^ 13 = (2 ^ 10 + f) * 2 ^ 13).
      { change (2 ^ 23) with (2 ^ 10 * 2 ^ 13). ring. }
      rewrite Hm.
      destruct ((2 ^ 10 + f) * 2 ^ 13) as [|m32|m32] eqn:E32;
        try (change (2 ^ 13) with 8192 in E32; lia).
      destruct (2 ^ 10 + f) as [|m16|m16] eqn:E16; try lia.
      cbn [SFsame].
      replace (e - 15 + 127 - 150) with (e - 25 - 13) by lia.
      apply finite_value_shift; [lia | symmetry; exact E32].
Qed.

(** *** A non-NaN datum has one binary32 pattern *)

Lemma odd_bit_inj (s s' : Z) :
  0 <= s <= 1 -> 0 <= s' <= 1 -> Z.odd s = Z.odd s' -> s = s'.
Proof.
  intros Hs Hs' H.
  assert (Hc : s = 0 \/ s = 1) by lia.
  assert (Hc' : s' = 0 \/ s' = 1) by lia.
  destruct Hc as [-> | ->], Hc' as [-> | ->];
    try reflexivity; discriminate H.
Qed.

(** Values of binary32 in units of 2^-149 grow with the exponent field:
    two normal numbers of the same value have the same fields. *)
Lemma normal_units_inj (e e' f f' : Z) :
  1 <= e -> 1 <= e' -> 0 <= f < 2 ^ 23 -> 0 <= f' < 2 ^ 23 ->
  (2 ^ 23 + f) * 2 ^ (e - 1) = (2 ^ 23 + f') * 2 ^ (e' - 1) ->
  e = e' /\ f = f'.
Proof.
  assert (Hlt : forall a a' b b',
             1 <= a < a' -> 0 <= b < 2 ^ 23 -> 0 <= b' < 2 ^ 23 ->
             (2 ^ 23 + b) * 2 ^ (a - 1) = (2 ^ 23 + b') * 2 ^ (a' - 1) -> False).
  { intros a a' b b' Ha Hb Hb' H.
    replace (a' - 1) with ((a - 1) + (a' - a)) in H by lia.
    rewrite Z.pow_add_r in H by lia.
    assert (0 < 2 ^ (a - 1)) by (apply Z.pow_pos_nonneg; lia).
    assert (2 <= 2 ^ (a' - a)).
    { change 2 with (2 ^ 1) at 1. apply Z.pow_le_mono_r; lia. }
    change (2 ^ 23) with 8388608 in *.
    assert (Hc : 8388608 + b = (8388608 + b') * 2 ^ (a' - a)) by nia.
    nia. }
  intros He He' Hf Hf' H.
  destruct (Z.lt_trichotomy e e') as [Hc | [Hc | Hc]].
  - exfalso. exact (Hlt e e' f f' ltac:(lia) Hf Hf' H).
  - subst e'. split; [reflexivity|].
    assert (0 < 2 ^ (e - 1)) by (apply Z.pow_pos_nonneg; lia). nia.
  - exfalso. symmetry in H. exact (Hlt e' e f' f ltac:(lia) Hf' Hf H).
Qed.

Lemma binary32_fields_inj (s e f s' e' f' : Z) :
  0 <= s <= 1 -> 0 <= e < 2 ^ 8 -> 0 <= f < 2 ^ 23 ->
  0 <= s' <= 1 -> 0 <= e' < 2 ^ 8 -> 0 <= f' < 2 ^ 23 ->
  binary32 (single_of_fields s e f) <> S754_nan ->
  SFsame (binary32 (single_of_fields s e f)) (binary32 (single_of_fields s' e' f')) ->
  s = s' /\ e = e' /\ f = f'.
Proof.
  intros Hs He Hf Hs' He' Hf' Hnan Hsame.
  rewrite binary32_of_fields in Hnan, Hsame by assumption.
  rewrite binary32_of_fields in Hsame by assumption.
  destruct (e =? 255) eqn:E255; destruct (e' =? 255) eqn:E255';
    [apply Z.eqb_eq in E255 | apply Z.eqb_eq in E255 | apply Z.eqb_neq in E255
     | apply Z.eqb_neq in E255];
    [apply Z.eqb_eq in E255' | apply Z.eqb_neq in E255' | apply Z.eqb_eq in E255'
     | apply Z.eqb_neq in E255'].
  - (* infinity, infinity or NaN *)
    destruct (f =? 0) eqn:F0; [apply Z.eqb_eq in F0 | congruence].
    destruct (f' =? 0) eqn:F0'; [apply Z.eqb_eq in F0' | contradiction].
    cbn [SFsame] in Hsame. apply odd_bit_inj in Hsame; try assumption. lia.
  - (* infinity, zero or finite *)
    destruct (f =? 0); [|congruence].
    destruct (e' =? 0); [destruct f' | destruct (2 ^ 23 + f')]; contradiction.
  - (* zero or finite, infinity or NaN *)
    destruct (f' =? 0);
      (destruct (e =? 0); [destruct f | destruct (2 ^ 23 + f)]; contradiction).
  - destruct (e =? 0) eqn:E0; destruct (e' =? 0) eqn:E0';
      [apply Z.eqb_eq in E0 | apply Z.eqb_eq in E0 | apply Z.eqb_neq in E0
       | apply Z.eqb_neq in E0];
      [apply Z.eqb_eq in E0' | apply Z.eqb_neq in E0' | apply Z.eqb_eq in E0'
       | apply Z.eqb_neq in E0'].
    + (* zero or subnormal on both sides *)
      destruct f as [|m|m], f' as [|m'|m']; try contradiction; try lia.
      * cbn [SFsame] in Hsame. apply odd_bit_inj in Hsame; try assumption. lia.
      * cbn [SFsame] in Hsame.
        apply finite_value_inj in Hsame; [|lia|lia].
        destruct Hsame as [Hsign Hu].
        apply odd_bit_inj in Hsign; try assumption.
        change (2 ^ (-149 + 149)) with 1 in Hu. lia.
    + (* zero or subnormal, normal *)
      destruct f as [|m|m]; destruct (2 ^ 23 + f') as [|m'|m'] eqn:E23;
        try contradiction; try lia.
      cbn [SFsame] in Hsame.
      apply finite_value_inj in Hsame; [|lia|lia].
      destruct Hsame as [_ Hu]. exfalso.
      change (2 ^ (-149 + 149)) with 1 in Hu.
      assert (0 < 2 ^ (e' - 150 + 149)) by (apply Z.pow_pos_nonneg; lia).
      change (2 ^ 23) with 8388608 in *. nia.
    + (* normal, zero or subnormal *)
      destruct f' as [|m'|m']; destruct (2 ^ 23 + f) as [|m|m] eqn:E23;
        try contradiction; try lia.
      cbn [SFsame] in Hsame.
      apply finite_value_inj in Hsame; [|lia|lia].
      destruct Hsame as [_ Hu]. exfalso.
      change (2 ^ (-149 + 149)) with 1 in Hu.
      assert (0 < 2 ^ (e - 150 + 149)) by (apply Z.pow_pos_nonneg; lia).
      change (2 ^ 23) with 8388608 in *. nia.
    + (* normal on both sides *)
      destruct (2 ^ 23 + f) as [|m|m] eqn:E23;
        destruct (2 ^ 23 + f') as [|m'|m'] eqn:E23'; try lia.
      cbn [SFsame] in Hsame.
      apply finite_value_inj in Hsame; [|lia|lia].
      destruct Hsame as [Hsign Hu].
      apply odd_bit_inj in Hsign; try assumption.
      rewrite <- E23, <- E23' in Hu.
      replace (e - 150 + 149) with (e - 1) in Hu by lia.
      replace (e' - 150 + 149) with (e' - 1) in Hu by lia.
      destruct (normal_units_inj e e' f f' ltac:(lia) ltac:(lia) Hf Hf' Hu).
      lia.
Qed.

Lemma binary32_inj (f g : Z) :
  0 <= f < 2 ^ 32 -> 0 <= g < 2 ^ 32 ->
  binary32 f <> S754_nan -> SFsame (binary32 f) (binary32 g) -> f = g.
Proof.
  intros Hf Hg Hnan Hsame.
  destruct (single_unfields f Hf) as (Ef & Hs & He & Hm).
  destruct (single_unfields g Hg) as (Eg & Hs' & He' & Hm').
  rewrite Ef in Hnan, Hsame. rewrite Eg in Hsame.
  destruct (binary32_fields_inj _ _ _ _ _ _ Hs He Hm Hs' He' Hm' Hnan Hsame)
    as (H1 & H2 & H3).
  rewrite Ef, Eg, H1, H2, H3. reflexivity.
Qed.

(** C6. [half2single] (as the specification describes it) is a function
    from 16-bit patterns to 32-bit patterns that widens exactly: the
    binary32 float it returns is the same datum as the binary16 float it
    was given, be it a signed zero, a subnormal or normal number (same
    rational value), an infinity or a NaN.  Hence the round trip: when a
    non-NaN float [f] is exactly representable in binary16, so that some
    half [h] encodes it, decoding [h] gives back [f] bit for bit. *)
Theorem C6_half2single_widens_exactly (h : Z) :
  0 <= h < 2 ^ 16 ->
  0 <= half2single h < 2 ^ 32
  /\ SFsame (binary32 (half2single h)) (binary16 h)
  /\ (forall f : Z,
        0 <= f < 2 ^ 32 -> binary32 f <> S754_nan ->
        SFsame (binary32 f) (binary16 h) ->
        half2single h = f).
Proof.
  intros Hh.
  pose proof (half2single_range h Hh) as Hr.
  pose proof (half2single_same h Hh) as Hsame.
  repeat split; try apply Hr; try exact Hsame.
  intros f Hf Hnan Hf16. symmetry.
  apply binary32_inj; try assumption.
  apply (SFsame_trans _ (binary16 h)); [exact Hf16 | apply SFsame_sym, Hsame].
Qed.

(** The examples of the specification, each through the round trip:
    0.5, 1.0, -2.0, +infinity and 0. *)
Lemma C6_witness :
  half2single 0x3800 = 0x3F000000
  /\ half2single 0x3C00 = 0x3F800000
  /\ half2single 0xC000 = 0xC0000000
  /\ half2single 0x7C00 = 0x7F800000
  /\ half2single 0x0000 = 0x00000000.
Proof.
  refine (conj _ (conj _ (conj _ (conj _ _)))).
  - apply (proj2 (proj2 (C6_half2single_widens_exactly 0x3800 ltac:(lia))));
      [lia | vm_compute; discriminate | vm_compute; reflexivity].
  - apply (proj2 (proj2 (C6_half2single_widens_exactly 0x3C00 ltac:(lia))));
      [lia | vm_compute; discriminate | vm_compute; reflexivity].
  - apply (proj2 (proj2 (C6_half2single_widens_exactly 0xC000 ltac:(lia))));
      [lia | vm_compute; discriminate | vm_compute; reflexivity].
  - apply (proj2 (proj2 (C6_half2single_widens_exactly 0x7C00 ltac:(lia))));
      [lia | vm_compute; discriminate | vm_compute; reflexivity].
  - apply (proj2 (proj2 (C6_half2single_widens_exactly 0x0000 ltac:(lia))));
      [lia | vm_compute; discriminate | vm_compute; reflexivity].
Defined.

(** A subnormal half: the smallest positive one, 2^-24, becomes the
    normal single 0x33800000, the same number. *)
Example half2single_smallest_subnormal :
  half2single 0x0001 = 0x33800000
  /\ binary16 0x0001 = S754_finite false 1 (-24)
  /\ binary32 0x33800000 = S754_finite false 8388608 (-47).
Proof. repeat split. Qed.

(** ** Packets built by [packet_of] fit the CRTP buffer *)

Lemma packet_of_wf (type : Z) (bytes : list byte) :
  (length bytes <= 29)%nat -> wf_packet (packet_of type bytes).
Proof.
  intros Hl. unfold wf_packet, packet_of, CRTP_MAX_DATA_SIZE.
  cbn [size data]. rewrite length_app, repeat_length. cbn [length].
  change (Z.to_nat 30) with 30%nat. lia.
Qed.

Lemma examples_wf :
  wf_packet example_fullControl_24 /\ wf_packet example_fullControl_18.
Proof. split; apply packet_of_wf; cbn; lia. Qed.

(** * Further properties of the decoder *)

(** ** The dispatcher in closed form *)

Lemma decode_closed_form (pk : CRTPPacket) (m : machine) :
  nTypes_ok m -> crtpCommanderGenericDecodeSetpoint pk m = decode_closed pk m.
Proof.
  intros Hn. unfold decode_closed.
  destruct (0 <? size pk) eqn:Es.
  - apply Z.ltb_lt in Es.
    destruct (packet_type pk =? velocityWorldType) eqn:E1.
    + apply Z.eqb_eq in E1.
      rewrite dispatch_velocity, run_velocityDecoder by assumption. reflexivity.
    + apply Z.eqb_neq in E1.
      destruct (packet_type pk =? fullControlType) eqn:E3.
      * apply Z.eqb_eq in E3.
        rewrite dispatch_fullControl, run_fullControlDecoder by assumption.
        reflexivity.
      * apply Z.eqb_neq in E3. apply dispatch_neutral; assumption.
  - unfold crtpCommanderGenericDecodeSetpoint, bind, ASSERT. rewrite Es. reflexivity.
Qed.

(** Case analysis on the closed form. *)
Ltac closed_cases pk :=
  unfold decode_closed;
  destruct (0 <? size pk) eqn:?Es;
  [ destruct (packet_type pk =? velocityWorldType) eqn:?E1;
    [ destruct (size pk - 1 =? sizeof_velocityPacket_s) eqn:?L1
    | destruct (packet_type pk =? fullControlType) eqn:?E3;
      [ destruct (size pk - 1 =? sizeof_fullControlPacket_t) eqn:?L3 | ] ]
  | ];
  cbn [final returned the_setpoint debugCount testValueX testValueY testValueZ
       nTypes neutralized].

(** ** Which packets are accepted *)

(** X4. On a well-formed memory a call returns exactly for the accepted
    packets: a non-empty packet whose size is 17 if its type is
    velocityWorld and 25 if its type is fullControl.  Every other
    packet stops the call, and the assertion that stops it is
    determined by the packet: line 181 for an empty packet, line 101
    for a velocity packet of another size, line 148 for a full-control
    packet of another size. *)
Theorem X4_returns_iff_accepted (pk : CRTPPacket) (m : machine) :
  nTypes_ok m ->
  (returned (crtpCommanderGenericDecodeSetpoint pk m) = true <-> accepted pk)
  /\ (forall line m',
        crtpCommanderGenericDecodeSetpoint pk m = Aborts line m' ->
        (line = 181 /\ size pk <= 0)
        \/ (line = 101 /\ 0 < size pk /\ packet_type pk = velocityWorldType
            /\ size pk <> 17)
        \/ (line = 148 /\ 0 < size pk /\ packet_type pk = fullControlType
            /\ size pk <> 25)).
Proof.
  intros Hn. rewrite (decode_closed_form pk m Hn).
  unfold accepted, decode_closed, velocityWorldType, fullControlType.
  change sizeof_velocityPacket_s with 16. change sizeof_fullControlPacket_t with 24.
  assert (Hiff : forall (b : bool) (P : Prop),
             (b = true -> P) -> (b = false -> ~ P) -> (b = true <-> P)).
  { intros [] P H1 H2; split; intros H; try reflexivity; try discriminate H; auto.
    exfalso. exact (H2 eq_refl H). }
  destruct (0 <? size pk) eqn:Es;
    [apply Z.ltb_lt in Es | apply Z.ltb_ge in Es].
  - destruct (packet_type pk =? 1) eqn:E1;
      [apply Z.eqb_eq in E1 | apply Z.eqb_neq in E1].
    + destruct (size pk - 1 =? 16) eqn:L1;
        [apply Z.eqb_eq in L1 | apply Z.eqb_neq in L1]; cbn [returned].
      * split; [apply Hiff; [lia | discriminate] | intros line m' H; discriminate H].
      * split; [apply Hiff; [discriminate | lia] |].
        intros line m' H. injection H as <- _. right. left. lia.
    + destruct (packet_type pk =? 3) eqn:E3;
        [apply Z.eqb_eq in E3 | apply Z.eqb_neq in E3].
      * destruct (size pk - 1 =? 24) eqn:L3;
          [apply Z.eqb_eq in L3 | apply Z.eqb_neq in L3]; cbn [returned].
        -- split; [apply Hiff; [lia | discriminate] | intros line m' H; discriminate H].
        -- split; [apply Hiff; [discriminate | lia] |].
           intros line m' H. injection H as <- _. right. right. lia.
      * cbn [returned].
        split; [apply Hiff; [lia | discriminate] | intros line m' H; discriminate H].
  - cbn [returned]. split; [apply Hiff; [discriminate | lia] |].
    intros line m' H. injection H as <- _. left. lia.
Qed.

Lemma X4_witness :
  (returned (crtpCommanderGenericDecodeSetpoint example_fullControl_24 first_call)
   = true <-> accepted example_fullControl_24)
  /\ ~ accepted example_fullControl_18.
Proof.
  split.
  - exact (proj1 (X4_returns_iff_accepted example_fullControl_24 first_call
                    (or_introl eq_refl))).
  - intros Ha.
    apply (proj1 (X4_returns_iff_accepted example_fullControl_18 first_call
                    (or_introl eq_refl))) in Ha.
    vm_compute in Ha. discriminate Ha.
Defined.

(** ** What a call depends on, and what it leaves *)

(** X1. The well-formedness of the memory is kept by every call,
    whether it returns or stops: [nTypes] stays at its initialiser or
    at the number of slots of the table, the counter stays a
    [uint32_t].  After any call on a non-empty packet [nTypes] is the
    number of slots (4), so it is computed at most once. *)
Theorem X1_machine_ok_is_invariant (pk : CRTPPacket) (m : machine) :
  machine_ok m ->
  machine_ok (final (crtpCommanderGenericDecodeSetpoint pk m))
  /\ (0 < size pk ->
      nTypes (final (crtpCommanderGenericDecodeSetpoint pk m))
      = Z.of_nat (length packetDecoders)).
Proof.
  intros [Hn Hd]. rewrite (decode_closed_form pk m Hn).
  assert (Hw : 0 <= wrap32 (debugCount m + 1) < 2 ^ 32).
  { unfold wrap32. apply Z.mod_pos_bound. reflexivity. }
  unfold machine_ok, nTypes_ok, debugCount_ok in *.
  closed_cases pk;
    (split; [split; [try (right; reflexivity); try exact Hn
                    | try exact Hd; try exact Hw]
            | intros Hs; try reflexivity; apply Z.ltb_lt in Hs; congruence]).
Qed.

Lemma X1_witness :
  machine_ok (final (crtpCommanderGenericDecodeSetpoint example_fullControl_24 first_call))
  /\ (0 < size example_fullControl_24 ->
      nTypes (final (crtpCommanderGenericDecodeSetpoint example_fullControl_24 first_call))
      = Z.of_nat (length packetDecoders)).
Proof.
  apply (X1_machine_ok_is_invariant example_fullControl_24 first_call).
  split; [left; reflexivity | unfold debugCount_ok; cbn; lia].
Defined.

(** X2. What a call on a non-empty packet does depends on the packet
    only: from two well-formed memories it returns or stops alike, and
    it leaves the same setpoint, whatever the caller's setpoint and the
    diagnostics held before; nothing of a stale setpoint survives.  If
    the two memories agree on the diagnostics, the call leaves the very
    same memory. *)
Theorem X2_outcome_depends_on_packet_only (pk : CRTPPacket) (m1 m2 : machine) :
  nTypes_ok m1 -> nTypes_ok m2 ->
  0 < size pk ->
  returned (crtpCommanderGenericDecodeSetpoint pk m1)
  = returned (crtpCommanderGenericDecodeSetpoint pk m2)
  /\ the_setpoint (final (crtpCommanderGenericDecodeSetpoint pk m1))
     = the_setpoint (final (crtpCommanderGenericDecodeSetpoint pk m2))
  /\ (debugCount m1 = debugCount m2 -> testValueX m1 = testValueX m2 ->
      testValueY m1 = testValueY m2 -> testValueZ m1 = testValueZ m2 ->
      crtpCommanderGenericDecodeSetpoint pk m1
      = crtpCommanderGenericDecodeSetpoint pk m2).
Proof.
  intros Hn1 Hn2 Hs.
  rewrite (decode_closed_form pk m1 Hn1), (decode_closed_form pk m2 Hn2).
  apply Z.ltb_lt in Hs.
  closed_cases pk; try discriminate;
    (split; [reflexivity | split; [reflexivity |]]);
    intros H1 H2 H3 H4; unfold neutralized; rewrite ?H1, ?H2, ?H3, ?H4; reflexivity.
Qed.

Lemma X2_witness :
  returned (crtpCommanderGenericDecodeSetpoint example_fullControl_24 first_call)
  = returned (crtpCommanderGenericDecodeSetpoint example_fullControl_24
                (neutralized first_call))
  /\ the_setpoint (final (crtpCommanderGenericDecodeSetpoint example_fullControl_24
                            first_call))
     = the_setpoint (final (crtpCommanderGenericDecodeSetpoint example_fullControl_24
                              (neutralized first_call))).
Proof.
  destruct (X2_outcome_depends_on_packet_only example_fullControl_24 first_call
              (neutralized first_call) (or_introl eq_refl) (or_intror eq_refl)
              eq_refl) as (H1 & H2 & _).
  exact (conj H1 H2).
Defined.

(** X3. The diagnostics change only when a full-control packet is
    decoded: a call on any packet that is not a type-3 packet of size
    25, returning or not, leaves [debugCount], [testValueX],
    [testValueY] and [testValueZ] as they were. *)
Theorem X3_diagnostics_frame (pk : CRTPPacket) (m : machine) :
  nTypes_ok m ->
  packet_type pk <> fullControlType \/ size pk <> 25 ->
  let m' := final (crtpCommanderGenericDecodeSetpoint pk m) in
  debugCount m' = debugCount m
  /\ testValueX m' = testValueX m
  /\ testValueY m' = testValueY m
  /\ testValueZ m' = testValueZ m.
Proof.
  intros Hn Hnot m'. subst m'. rewrite (decode_closed_form pk m Hn).
  closed_cases pk; try (repeat split; reflexivity).
  exfalso. apply Z.eqb_eq in E3, L3.
  change sizeof_fullControlPacket_t with 24 in L3. lia.
Qed.

Lemma X3_witness :
  let m := mkMachine stale_setpoint 7 8 9 10 4 in
  let m' := final (crtpCommanderGenericDecodeSetpoint example_fullControl_18 m) in
  debugCount m' = 7 /\ testValueX m' = 8 /\ testValueY m' = 9 /\ testValueZ m' = 10.
Proof.
  apply (X3_diagnostics_frame example_fullControl_18 (mkMachine stale_setpoint 7 8 9 10 4)).
  - right. reflexivity.
  - right. vm_compute. discriminate.
Defined.

(** X9. Whatever the packet, the setpoint a call on a non-empty packet
    leaves is within bounds: the numeric modes [xmode], [ymode], [zmode]
    are 3-bit values and the term arrays have the lengths they were
    declared with (3, 3, 3 and 2). *)
Theorem X9_setpoint_in_bounds (pk : CRTPPacket) (m : machine) :
  nTypes_ok m ->
  0 < size pk ->
  setpoint_in_bounds (the_setpoint (final (crtpCommanderGenericDecodeSetpoint pk m))).
Proof.
  intros Hn Hs. rewrite (decode_closed_form pk m Hn). apply Z.ltb_lt in Hs.
  assert (Hb : forall w pos, 0 <= pos -> 0 <= bitfield w pos 3 < 8).
  { intros w pos Hp. rewrite bitfield_div_mod by lia.
    change (2 ^ 3) with 8. apply Z.mod_pos_bound. reflexivity. }
  closed_cases pk; try discriminate; unfold setpoint_in_bounds;
    cbn [decoded_velocity decoded_fullControl neutral_setpoint xmode ymode zmode
         sp_x sp_y sp_z sp_yaw map length];
    unfold controlModeX, controlModeY, controlModeZ;
    repeat split; try reflexivity; try lia; try (apply Hb; lia).
Qed.

Lemma X9_witness :
  setpoint_in_bounds
    (the_setpoint (final (crtpCommanderGenericDecodeSetpoint
                            (mkCRTPPacket 25 (byte_of_Z fullControlType :: repeat xff 29))
                            first_call))).
Proof.
  apply X9_setpoint_in_bounds.
  - left. reflexivity.
  - reflexivity.
Defined.

(** ** Only the valid bytes of the buffer are read *)

Lemma byte_at_firstn_agree (l1 l2 : list byte) (n : nat) (i : Z) :
  firstn n l1 = firstn n l2 -> 0 <= i < Z.of_nat n ->
  byte_at l1 i = byte_at l2 i.
Proof.
  intros H Hi. unfold byte_at. f_equal.
  assert (Hk : (Z.to_nat i <? n)%nat = true) by (apply Nat.ltb_lt; lia).
  pose proof (nth_firstn n l1 (Z.to_nat i) x00) as H1.
  pose proof (nth_firstn n l2 (Z.to_nat i) x00) as H2.
  rewrite Hk in H1, H2. rewrite <- H1, <- H2, H. reflexivity.
Qed.

Lemma byte_at_payload (pk : CRTPPacket) (i : Z) :
  0 <= i -> byte_at (payload pk) i = byte_at (data pk) (i + 1).
Proof.
  intros Hi. unfold byte_at, payload. rewrite nth_skipn.
  f_equal. f_equal. lia.
Qed.

Section SameValidBytes.
Variables pk1 pk2 : CRTPPacket.
Hypothesis same_size : size pk1 = size pk2.
Hypothesis same_bytes :
  firstn (Z.to_nat (size pk1)) (data pk1) = firstn (Z.to_nat (size pk1)) (data pk2).

Lemma valid_byte_agree (i : Z) :
  0 <= i < size pk1 -> byte_at (data pk1) i = byte_at (data pk2) i.
Proof.
  intros Hi. apply (byte_at_firstn_agree _ _ (Z.to_nat (size pk1))); [assumption | lia].
Qed.

Lemma payload_byte_agree (i : Z) :
  0 <= i < size pk1 - 1 -> byte_at (payload pk1) i = byte_at (payload pk2) i.
Proof.
  intros Hi. rewrite !byte_at_payload by lia. apply valid_byte_agree. lia.
Qed.

Lemma payload_float_agree (off : Z) :
  0 <= off -> off + 4 <= size pk1 - 1 ->
  load_float (payload pk1) off = load_float (payload pk2) off.
Proof.
  intros H0 H1. unfold load_float. rewrite !payload_byte_agree by lia. reflexivity.
Qed.

Lemma payload_u16_agree (off : Z) :
  0 <= off -> off + 2 <= size pk1 - 1 ->
  load_u16 (payload pk1) off = load_u16 (payload pk2) off.
Proof.
  intros H0 H1. unfold load_u16. rewrite !payload_byte_agree by lia. reflexivity.
Qed.

Lemma decoded_velocity_agree :
  size pk1 - 1 = sizeof_velocityPacket_s ->
  decoded_velocity (payload pk1) = decoded_velocity (payload pk2).
Proof.
  intros Hs. change sizeof_velocityPacket_s with 16 in Hs.
  unfold decoded_velocity, values_vx, values_vy, values_vz, values_yawrate.
  rewrite !payload_float_agree by lia. reflexivity.
Qed.

Lemma decoded_fullControl_agree :
  size pk1 - 1 = sizeof_fullControlPacket_t ->
  decoded_fullControl (payload pk1) = decoded_fullControl (payload pk2)
  /\ packet_x (payload pk1) 0 = packet_x (payload pk2) 0
  /\ packet_y (payload pk1) 0 = packet_y (payload pk2) 0
  /\ packet_z (payload pk1) 0 = packet_z (payload pk2) 0.
Proof.
  intros Hs. change sizeof_fullControlPacket_t with 24 in Hs.
  unfold decoded_fullControl, packet_x, packet_y, packet_z, packet_yaw,
    offsetof_yaw, offsetof_z, offsetof_y, offsetof_x,
    sizeof_fullControlPacketHeader_t.
  cbn [map].
  rewrite !payload_u16_agree by lia. repeat split.
Qed.
End SameValidBytes.

(** X5. A call reads the buffer of the packet only below [pk->size]:
    two packets of the same size whose first [size] bytes are the same
    are treated alike, whatever the rest of their buffers holds. *)
Theorem X5_reads_only_valid_bytes (pk1 pk2 : CRTPPacket) (m : machine) :
  nTypes_ok m ->
  size pk1 = size pk2 ->
  firstn (Z.to_nat (size pk1)) (data pk1) = firstn (Z.to_nat (size pk1)) (data pk2) ->
  crtpCommanderGenericDecodeSetpoint pk1 m = crtpCommanderGenericDecodeSetpoint pk2 m.
Proof.
  intros Hn Hs Hb.
  rewrite (decode_closed_form pk1 m Hn), (decode_closed_form pk2 m Hn).
  unfold decode_closed. rewrite <- Hs.
  destruct (0 <? size pk1) eqn:Es; [apply Z.ltb_lt in Es | reflexivity].
  assert (Ht : packet_type pk1 = packet_type pk2).
  { apply (valid_byte_agree pk1 pk2 Hb). lia. }
  rewrite <- Ht.
  destruct (packet_type pk1 =? velocityWorldType).
  - destruct (size pk1 - 1 =? sizeof_velocityPacket_s) eqn:L1; [|reflexivity].
    apply Z.eqb_eq in L1.
    rewrite (decoded_velocity_agree pk1 pk2 Hb L1). reflexivity.
  - destruct (packet_type pk1 =? fullControlType); [|reflexivity].
    destruct (size pk1 - 1 =? sizeof_fullControlPacket_t) eqn:L3; [|reflexivity].
    apply Z.eqb_eq in L3.
    destruct (decoded_fullControl_agree pk1 pk2 Hb L3) as (E & Ex & Ey & Ez).
    rewrite E, Ex, Ey, Ez. reflexivity.
Qed.

Lemma X5_witness :
  crtpCommanderGenericDecodeSetpoint
    (mkCRTPPacket 17 (byte_of_Z 1 :: repeat x2a 16 ++ repeat x00 13)) first_call
  = crtpCommanderGenericDecodeSetpoint
      (mkCRTPPacket 17 (byte_of_Z 1 :: repeat x2a 16 ++ repeat xff 13)) first_call.
Proof.
  apply X5_reads_only_valid_bytes.
  - left. reflexivity.
  - reflexivity.
  - reflexivity.
Defined.

(** ** The header bits no field of the setpoint comes from *)

Lemma packet_terms_after_header (h : Z) (body : list byte) (i : nat) :
  packet_x (half_bytes h ++ body) i = load_u16 body (2 * Z.of_nat i)
  /\ packet_y (half_bytes h ++ body) i = load_u16 body (6 + 2 * Z.of_nat i)
  /\ packet_z (half_bytes h ++ body) i = load_u16 body (12 + 2 * Z.of_nat i)
  /\ packet_yaw (half_bytes h ++ body) i = load_u16 body (18 + 2 * Z.of_nat i).
Proof.
  unfold packet_x, packet_y, packet_z, packet_yaw, offsetof_yaw, offsetof_z,
    offsetof_y, offsetof_x, sizeof_fullControlPacketHeader_t.
  repeat split.
  - apply load_u16_skip. lia.
  - replace (2 + 3 * 2 + 2 * Z.of_nat i) with (2 + (6 + 2 * Z.of_nat i)) by lia.
    apply load_u16_skip. lia.
  - replace (2 + 3 * 2 + 3 * 2 + 2 * Z.of_nat i) with (2 + (12 + 2 * Z.of_nat i)) by lia.
    apply load_u16_skip. lia.
  - replace (2 + 3 * 2 + 3 * 2 + 3 * 2 + 2 * Z.of_nat i)
      with (2 + (18 + 2 * Z.of_nat i)) by lia.
    apply load_u16_skip. lia.
Qed.

(** The setpoint of a full-control payload, by header and body. *)
Lemma decoded_fullControl_wire (h : Z) (body : list byte) :
  0 <= h < 2 ^ 16 ->
  decoded_fullControl (half_bytes h ++ body) =
  {| mode := mkMode modeDisable modeDisable modeDisable modeDisable;
     velocity := mkVelocity 0 0 0;
     attitudeRate_yaw := 0;
     xmode := controlModeX h; ymode := controlModeY h; zmode := controlModeZ h;
     sp_x := map (fun i => half2single (load_u16 body (2 * Z.of_nat i))) [0; 1; 2]%nat;
     sp_y := map (fun i => half2single (load_u16 body (6 + 2 * Z.of_nat i))) [0; 1; 2]%nat;
     sp_z := map (fun i => half2single (load_u16 body (12 + 2 * Z.of_nat i))) [0; 1; 2]%nat;
     sp_yaw := map (fun i => half2single (load_u16 body (18 + 2 * Z.of_nat i))) [0; 1]%nat;
     setEmergency := flag_of (header_setEmergency h);
     resetEmergency := flag_of (header_resetEmergency h) |}.
Proof.
  intros Hh. unfold decoded_fullControl. cbn [map].
  rewrite (load_u16_le_bytes h body Hh).
  rewrite !(proj1 (packet_terms_after_header h body _)).
  rewrite !(proj1 (proj2 (packet_terms_after_header h body _))).
  rewrite !(proj1 (proj2 (proj2 (packet_terms_after_header h body _)))).
  rewrite !(proj2 (proj2 (proj2 (packet_terms_after_header h body _)))).
  reflexivity.
Qed.

(** X6. Bit 0 of the full-control header ([packetHasExternalReference])
    and its four padding bits have no effect at all: two packets that
    differ only there leave the same memory, setpoint and diagnostics. *)
Theorem X6_unused_header_bits_are_ignored
    (ext ext' se re : bool) (mx my mz pad pad' : Z) (body : list byte) (m : machine) :
  nTypes_ok m ->
  0 <= mx < 8 -> 0 <= my < 8 -> 0 <= mz < 8 ->
  0 <= pad < 16 -> 0 <= pad' < 16 ->
  crtpCommanderGenericDecodeSetpoint
    (mkCRTPPacket 25
       (byte_of_Z fullControlType
        :: half_bytes (pack_header ext se re mx my mz pad) ++ body)) m
  = crtpCommanderGenericDecodeSetpoint
      (mkCRTPPacket 25
         (byte_of_Z fullControlType
          :: half_bytes (pack_header ext' se re mx my mz pad') ++ body)) m.
Proof.
  intros Hn Hx Hy Hz Hp Hp'.
  destruct (header_fields ext se re mx my mz pad Hx Hy Hz Hp)
    as (Hh & _ & Hse & Hre & Hmx & Hmy & Hmz).
  destruct (header_fields ext' se re mx my mz pad' Hx Hy Hz Hp')
    as (Hh' & _ & Hse' & Hre' & Hmx' & Hmy' & Hmz').
  rewrite !decode_fullControl; try assumption; try reflexivity.
  unfold payload. cbn [data skipn].
  rewrite !decoded_fullControl_wire by assumption.
  rewrite Hse, Hre, Hmx, Hmy, Hmz, Hse', Hre', Hmx', Hmy', Hmz'.
  rewrite !(proj1 (packet_terms_after_header _ body _)).
  rewrite !(proj1 (proj2 (packet_terms_after_header _ body _))).
  rewrite !(proj1 (proj2 (proj2 (packet_terms_after_header _ body _)))).
  reflexivity.
Qed.

Lemma X6_witness :
  crtpCommanderGenericDecodeSetpoint
    (mkCRTPPacket 25
       (byte_of_Z fullControlType
        :: half_bytes (pack_header false true false 1 2 3 0) ++ repeat x3c 27)) first_call
  = crtpCommanderGenericDecodeSetpoint
      (mkCRTPPacket 25
         (byte_of_Z fullControlType
          :: half_bytes (pack_header true true false 1 2 3 15) ++ repeat x3c 27)) first_call.
Proof.
  apply (X6_unused_header_bits_are_ignored false true true false 1 2 3 0 15
           (repeat x3c 27) first_call).
  - left. reflexivity.
  - lia.
  - lia.
  - lia.
  - lia.
  - lia.
Defined.

(** ** Calls in sequence *)

(** What one returning call does to the static variables. *)
Lemma returning_call (pk : CRTPPacket) (m m1 : machine) :
  nTypes_ok m ->
  crtpCommanderGenericDecodeSetpoint pk m = Returns tt m1 ->
  nTypes_ok m1
  /\ debugCount m1
     = (if is_fullControl pk then wrap32 (debugCount m + 1) else debugCount m)
  /\ testValueX m1
     = (if is_fullControl pk then half2single (packet_x (payload pk) 0)
        else testValueX m)
  /\ testValueY m1
     = (if is_fullControl pk then half2single (packet_y (payload pk) 0)
        else testValueY m)
  /\ testValueZ m1
     = (if is_fullControl pk then half2single (packet_z (payload pk) 0)
        else testValueZ m).
Proof.
  intros Hn H. rewrite (decode_closed_form pk m Hn) in H.
  unfold decode_closed, is_fullControl in *.
  destruct (0 <? size pk); [|discriminate H].
  destruct (packet_type pk =? velocityWorldType) eqn:E1.
  - apply Z.eqb_eq in E1. rewrite E1.
    change (velocityWorldType =? fullControlType) with false.
    destruct (size pk - 1 =? sizeof_velocityPacket_s); [|discriminate H].
    injection H as <-. repeat split. right. reflexivity.
  - destruct (packet_type pk =? fullControlType).
    + destruct (size pk - 1 =? sizeof_fullControlPacket_t); [|discriminate H].
      injection H as <-. repeat split. right. reflexivity.
    + injection H as <-. repeat split. right. reflexivity.
Qed.

Lemma decode_all_cons (pk : CRTPPacket) (ps : list CRTPPacket) (m : machine) :
  returned (decode_all (pk :: ps) m) = true ->
  exists m1,
    crtpCommanderGenericDecodeSetpoint pk m = Returns tt m1
    /\ decode_all (pk :: ps) m = decode_all ps m1.
Proof.
  cbn [decode_all]. unfold bind.
  destruct (crtpCommanderGenericDecodeSetpoint pk m) as [[] m1 | line m1].
  - intros _. exists m1. split; reflexivity.
  - intros H. discriminate H.
Qed.

(** X7. Over any sequence of calls that all return, [debugCount] (the
    exported [packetsReceived]) advances by the number of full-control
    packets in the sequence, modulo 2^32: stop and velocity packets and
    packets of unknown type are not counted. *)
Theorem X7_debugCount_counts_fullControl (ps : list CRTPPacket) (m : machine) :
  machine_ok m ->
  returned (decode_all ps m) = true ->
  debugCount (final (decode_all ps m))
  = wrap32 (debugCount m + Z.of_nat (length (filter is_fullControl ps))).
Proof.
  revert m. induction ps as [|pk ps IH]; intros m [Hn Hd] Hret.
  - cbn. rewrite Z.add_0_r. unfold wrap32. symmetry. apply Z.mod_small. exact Hd.
  - destruct (decode_all_cons pk ps m Hret) as (m1 & Hcall & Hrest).
    rewrite Hrest in Hret |- *.
    destruct (returning_call pk m m1 Hn Hcall) as (Hn1 & Hc & _).
    assert (Hd1 : debugCount_ok m1).
    { unfold debugCount_ok. rewrite Hc.
      destruct (is_fullControl pk); [|exact Hd].
      unfold wrap32. apply Z.mod_pos_bound. reflexivity. }
    rewrite (IH m1 (conj Hn1 Hd1) Hret), Hc. cbn [filter].
    destruct (is_fullControl pk); [|reflexivity].
    cbn [length]. unfold wrap32.
    rewrite Z.add_mod_idemp_l by discriminate. f_equal. lia.
Qed.

(** A full-control packet, a stop, a full-control packet and a second
    stop: two are counted. *)
Lemma X7_witness :
  debugCount
    (final (decode_all [example_fullControl_24; packet_of 0 [];
                        example_fullControl_24; packet_of 0 [x01]] first_call))
  = wrap32 (debugCount first_call + 2).
Proof.
  apply (X7_debugCount_counts_fullControl
           [example_fullControl_24; packet_of 0 [];
            example_fullControl_24; packet_of 0 [x01]] first_call).
  - split; [left; reflexivity | unfold debugCount_ok; cbn; lia].
  - vm_compute. reflexivity.
Defined.

(** X8. Over any sequence of calls that all return, [testValueX],
    [testValueY] and [testValueZ] hold the first x, y and z terms of the
    most recent full-control packet, decoded; packets of other types
    that came later have not disturbed them.  If the sequence has no
    full-control packet they are unchanged. *)
Theorem X8_samples_are_of_last_fullControl (ps : list CRTPPacket) (m : machine) :
  nTypes_ok m ->
  returned (decode_all ps m) = true ->
  let m' := final (decode_all ps m) in
  match last_fullControl ps with
  | Some q =>
      testValueX m' = half2single (packet_x (payload q) 0)
      /\ testValueY m' = half2single (packet_y (payload q) 0)
      /\ testValueZ m' = half2single (packet_z (payload q) 0)
  | None =>
      testValueX m' = testValueX m
      /\ testValueY m' = testValueY m
      /\ testValueZ m' = testValueZ m
  end.
Proof.
  revert m. induction ps as [|pk ps IH]; intros m Hn Hret; cbv zeta.
  - cbn. repeat split.
  - destruct (decode_all_cons pk ps m Hret) as (m1 & Hcall & Hrest).
    rewrite Hrest in Hret |- *.
    destruct (returning_call pk m m1 Hn Hcall) as (Hn1 & _ & Hx & Hy & Hz).
    specialize (IH m1 Hn1 Hret). cbv zeta in IH.
    cbn [last_fullControl].
    destruct (last_fullControl ps) as [q|]; [exact IH|].
    destruct IH as (Ex & Ey & Ez). rewrite Ex, Ey, Ez, Hx, Hy, Hz.
    destruct (is_fullControl pk); repeat split.
Qed.

Lemma X8_witness :
  let m' := final (decode_all [example_fullControl_24; packet_of 0 []] first_call) in
  testValueX m' = half2single (packet_x (payload example_fullControl_24) 0)
  /\ testValueY m' = half2single (packet_y (payload example_fullControl_24) 0)
  /\ testValueZ m' = half2single (packet_z (payload example_fullControl_24) 0).
Proof.
  apply (X8_samples_are_of_last_fullControl
           [example_fullControl_24; packet_of 0 []] first_call).
  - left. reflexivity.
  - vm_compute. reflexivity.
Defined.
